(** * Arcamage backend: the OpenAI-compatible supplier proxy

    A shallow embedding of
    - [backend/app/core/supplier_proxy.py] ([_normalize_base_url],
      [fetch_models]),
    - [backend/app/api/proxy.py] ([_format_error_event], [_map_error_code],
      [_stream_chat], [_request_chat], [proxy_chat]),
    - [backend/app/api/suppliers.py] ([test_supplier_connection],
      [get_supplier_models]),
    - [backend/app/api/remote_import.py] ([parse_version],
      [check_version_compatibility], [import_remote_card],
      [get_pending_imports], [get_pending_card]),
    - [backend/app/main.py] (the CORS origins) and
      [backend/app/settings.py] ([max_upload_bytes]),
    together with the parts of the Python runtime these functions observe.

    Python [str] is a sequence of code points, [bytes] a sequence of octets;
    exceptions are an explicit result type; network I/O and generator output
    are threaded through a small trace monad. *)

From Stdlib Require Import List ZArith NArith Lia Bool String Ascii.
From Stdlib.Strings Require Import Byte.
From Stdlib Require Import DecimalString.
From Stdlib Require DecimalZ DecimalPos.
Import ListNotations.

Set Implicit Arguments.
Set Warnings "-register-all".
Open Scope Z_scope.

(** ** Text and bytes *)

Module Py.

(** A Python [str]: code points, surrogates included (Python strings may hold
    lone surrogates).  A [bytes] object: octets. *)
Definition codepoint := N.
Definition str := list codepoint.
Definition bytes := list byte.

Definition byte_of_N (n : N) : byte :=
  match Byte.of_N n with Some b => b | None => x00 end.

(** Strict UTF-8 decoding of one well-formed sequence at the head of the
    input; [None] on anything ill-formed.  Only used on source literals. *)
Definition cont (b : byte) : option N :=
  let n := Byte.to_N b in
  if ((128 <=? n) && (n <? 192))%N then Some (n - 128)%N else None.

Fixpoint utf8_decode (bs : bytes) : option str :=
  match bs with
  | [] => Some []
  | b0 :: r0 =>
    let n0 := Byte.to_N b0 in
    if (n0 <? 128)%N then option_map (cons n0) (utf8_decode r0)
    else if (n0 <? 194)%N then None
    else if (n0 <? 224)%N then
      match r0 with
      | b1 :: r1 =>
        match cont b1 with
        | Some c1 => option_map (cons ((n0 - 192) * 64 + c1)%N) (utf8_decode r1)
        | None => None
        end
      | _ => None
      end
    else if (n0 <? 240)%N then
      match r0 with
      | b1 :: b2 :: r2 =>
        match cont b1, cont b2 with
        | Some c1, Some c2 =>
          let cp := ((n0 - 224) * 4096 + c1 * 64 + c2)%N in
          if ((cp <? 2048) || ((55296 <=? cp) && (cp <? 57344)))%N then None
          else option_map (cons cp) (utf8_decode r2)
        | _, _ => None
        end
      | _ => None
      end
    else if (n0 <? 245)%N then
      match r0 with
      | b1 :: b2 :: b3 :: r3 =>
        match cont b1, cont b2, cont b3 with
        | Some c1, Some c2, Some c3 =>
          let cp := ((n0 - 240) * 262144 + c1 * 4096 + c2 * 64 + c3)%N in
          if ((cp <? 65536) || (1114111 <? cp))%N then None
          else option_map (cons cp) (utf8_decode r3)
        | _, _, _ => None
        end
      | _ => None
      end
    else None
  end.

(** A source literal, written in this file as UTF-8 text. *)
Definition lit (s : string) : str :=
  match utf8_decode (list_byte_of_string s) with
  | Some u => u
  | None => []
  end.

(** [str.encode("utf-8")] on one code point.  Surrogates (U+D800..U+DFFF)
    have no UTF-8 form: CPython raises [UnicodeEncodeError]. *)
Definition is_surrogate (c : codepoint) : bool :=
  ((55296 <=? c) && (c <? 57344))%N.

Definition is_scalar (c : codepoint) : bool :=
  negb (is_surrogate c) && (c <=? 1114111)%N.

Definition utf8_encode_cp (c : codepoint) : option bytes :=
  if (c <? 128)%N then Some [byte_of_N c]
  else if (c <? 2048)%N then
    Some [byte_of_N (192 + c / 64); byte_of_N (128 + c mod 64)]
  else if (c <? 65536)%N then
    if is_surrogate c then None
    else Some [byte_of_N (224 + c / 4096); byte_of_N (128 + (c / 64) mod 64);
               byte_of_N (128 + c mod 64)]
  else if (c <=? 1114111)%N then
    Some [byte_of_N (240 + c / 262144); byte_of_N (128 + (c / 4096) mod 64);
          byte_of_N (128 + (c / 64) mod 64); byte_of_N (128 + c mod 64)]
  else None.

Fixpoint utf8_encode (s : str) : option bytes :=
  match s with
  | [] => Some []
  | c :: r =>
    match utf8_encode_cp c, utf8_encode r with
    | Some b, Some bs => Some (b ++ bs)
    | _, _ => None
    end
  end.

(** Truthiness of a sequence: [if s:] holds when it is not empty. *)
Definition nonempty {A} (l : list A) : bool :=
  match l with [] => false | _ => true end.

(** [str.isspace] on one code point (CPython's [_PyUnicode_IsWhitespace]);
    [str.strip()] without argument removes exactly these. *)
Definition isspace (c : codepoint) : bool :=
  ((9 <=? c) && (c <=? 13) || (28 <=? c) && (c <=? 32)
   || (c =? 133) || (c =? 160) || (c =? 5760)
   || (8192 <=? c) && (c <=? 8202)
   || (c =? 8232) || (c =? 8233) || (c =? 8239) || (c =? 8287)
   || (c =? 12288))%N.

Fixpoint lstrip_by (p : codepoint -> bool) (s : str) : str :=
  match s with
  | [] => []
  | c :: r => if p c then lstrip_by p r else s
  end.

Definition rstrip_by (p : codepoint -> bool) (s : str) : str :=
  rev (lstrip_by p (rev s)).

Definition strip (s : str) : str := rstrip_by isspace (lstrip_by isspace s).

Definition slash : codepoint := 47%N.
Definition colon : codepoint := 58%N.
Definition at_sign : codepoint := 64%N.
Definition hash : codepoint := 35%N.
Definition qmark : codepoint := 63%N.
Definition lbracket : codepoint := 91%N.
Definition rbracket : codepoint := 93%N.
Definition percent : codepoint := 37%N.

(** [s.rstrip("/")] *)
Definition rstrip_slash (s : str) : str := rstrip_by (N.eqb slash) s.

Definition str_eqb (a b : str) : bool :=
  if list_eq_dec N.eq_dec a b then true else false.

(** [str(n)] for an [int]. *)
Definition str_of_int (z : Z) : str :=
  lit (NilZero.string_of_int (Z.to_int z)).

End Py.
Import Py.


(** ** JSON values, as [json.loads] builds them *)

(** A Python [float], as far as this code observes it: its truth value, the
    text [str()] gives and the text [json.dumps] emits. *)
Record PyFloat := {
  fl_truthy : bool;
  fl_repr : str;
  fl_json : str
}.

Inductive json :=
| JNull
| JBool (b : bool)
| JInt (n : Z)
| JFloat (f : PyFloat)
| JStr (s : str)
| JList (l : list json)
| JDict (d : list (str * json)).

(** A [dict] keeps insertion order; keys are unique. *)
Definition pydict := list (str * json).

Fixpoint dict_get (d : pydict) (k : str) : option json :=
  match d with
  | [] => None
  | (k', v) :: r => if str_eqb k' k then Some v else dict_get r k
  end.

(** [d.get(k, default)] *)
Definition dict_get_default (d : pydict) (k : str) (default : json) : json :=
  match dict_get d k with Some v => v | None => default end.

(** [d[k] = v] *)
Fixpoint dict_set (d : pydict) (k : str) (v : json) : pydict :=
  match d with
  | [] => [(k, v)]
  | (k', v') :: r =>
    if str_eqb k' k then (k', v) :: r else (k', v') :: dict_set r k v
  end.

Definition dict_has (d : pydict) (k : str) : bool :=
  match dict_get d k with Some _ => true | None => false end.

(** [bool(v)] *)
Definition truthy (v : json) : bool :=
  match v with
  | JNull => false
  | JBool b => b
  | JInt n => negb (n =? 0)
  | JFloat f => fl_truthy f
  | JStr s => nonempty s
  | JList l => nonempty l
  | JDict d => nonempty d
  end.

Definition is_none (v : json) : bool :=
  match v with JNull => true | _ => false end.

(** *** [json.dumps(v, ensure_ascii=False)] *)

Definition dquote : str := [34%N].
Definition nl : str := [10%N].

Definition hex_digit (n : N) : codepoint :=
  (if n <? 10 then 48 + n else 87 + n)%N.

(** [py_encode_basestring]: the escapes of [ESCAPE_DCT]; every other code
    point, non-ASCII included, is copied. *)
Definition json_escape_cp (c : codepoint) : str :=
  if (c =? 34)%N then lit "\" ++ dquote
  else if (c =? 92)%N then lit "\\"
  else if (c =? 10)%N then lit "\n"
  else if (c =? 13)%N then lit "\r"
  else if (c =? 9)%N then lit "\t"
  else if (c =? 8)%N then lit "\b"
  else if (c =? 12)%N then lit "\f"
  else if (c <? 32)%N then lit "\u00" ++ [hex_digit (c / 16); hex_digit (c mod 16)]
  else [c].

Definition json_string (s : str) : str :=
  dquote ++ flat_map json_escape_cp s ++ dquote.

Fixpoint join (sep : str) (parts : list str) : str :=
  match parts with
  | [] => []
  | [p] => p
  | p :: r => p ++ sep ++ join sep r
  end.

Fixpoint json_dumps (v : json) : str :=
  match v with
  | JNull => lit "null"
  | JBool true => lit "true"
  | JBool false => lit "false"
  | JInt n => str_of_int n
  | JFloat f => fl_json f
  | JStr s => json_string s
  | JList l => lit "[" ++ join (lit ", ") (map json_dumps l) ++ lit "]"
  | JDict d =>
    lit "{" ++
    join (lit ", ")
         (map (fun kv => json_string (fst kv) ++ lit ": " ++ json_dumps (snd kv)) d)
    ++ lit "}"
  end.

(** ** Exceptions and results *)

(** [app/core/api_models.py], [ErrorCode]. *)
Inductive ErrorCode :=
| VALIDATION_ERROR
| PARSE_ERROR
| FILE_TOO_LARGE
| INVALID_FORMAT
| NETWORK_ERROR
| TIMEOUT
| UNAUTHORIZED
| RATE_LIMITED
| INTERNAL_ERROR.

(** The [str] value of each member. *)
Definition ErrorCode_value (c : ErrorCode) : str :=
  match c with
  | VALIDATION_ERROR => lit "VALIDATION_ERROR"
  | PARSE_ERROR => lit "PARSE_ERROR"
  | FILE_TOO_LARGE => lit "FILE_TOO_LARGE"
  | INVALID_FORMAT => lit "INVALID_FORMAT"
  | NETWORK_ERROR => lit "NETWORK_ERROR"
  | TIMEOUT => lit "TIMEOUT"
  | UNAUTHORIZED => lit "UNAUTHORIZED"
  | RATE_LIMITED => lit "RATE_LIMITED"
  | INTERNAL_ERROR => lit "INTERNAL_ERROR"
  end.

(** The exceptions this code raises or lets through.  The last five are the
    classes the two modules import from [app.core.exceptions]; the httpx
    classes keep their hierarchy: [TimeoutException] is a [RequestError]. *)
Inductive exn :=
| HttpxTimeoutException
| HttpxRequestError (detail : str)
| ValueError (msg : str)
| AttributeError (msg : str)
| UnicodeEncodeError
| OtherException (name : str)
| ValidationError (message : str) (details : option json)
| TimeoutError (message : str)
| NetworkError (message : str) (details : option json)
| UnauthorizedError (message : str)
| RateLimitedError (message : str).

(** [isinstance(e, httpx.TimeoutException)] *)
Definition is_httpx_timeout (e : exn) : bool :=
  match e with HttpxTimeoutException => true | _ => false end.

(** [isinstance(e, httpx.RequestError)] *)
Definition is_httpx_request_error (e : exn) : bool :=
  match e with
  | HttpxTimeoutException | HttpxRequestError _ => true
  | _ => false
  end.

(** [str(error)] for the exceptions that carry a text. *)
Definition exn_str (e : exn) : str :=
  match e with
  | HttpxRequestError d => d
  | ValueError m | AttributeError m => m
  | ValidationError m _ | TimeoutError m | NetworkError m _
  | UnauthorizedError m | RateLimitedError m => m
  | _ => []
  end.

(** Modelled from the spec: [app/core/exceptions.py] is not among the
    sources.  Each application exception carries the error kind the
    specification names for it: local validation failure is
    [VALIDATION_ERROR], transport timeout [TIMEOUT], other transport failure
    [NETWORK_ERROR], upstream 401 [UNAUTHORIZED], upstream 429 [RATE_LIMITED];
    the exception handler reports anything else as [INTERNAL_ERROR]. *)
Definition error_code (e : exn) : ErrorCode :=
  match e with
  | ValidationError _ _ => VALIDATION_ERROR
  | TimeoutError _ => TIMEOUT
  | NetworkError _ _ => NETWORK_ERROR
  | UnauthorizedError _ => UNAUTHORIZED
  | RateLimitedError _ => RATE_LIMITED
  | _ => INTERNAL_ERROR
  end.

(** The kind a caller sees, as text. *)
Definition error_kind (e : exn) : str := ErrorCode_value (error_code e).

Inductive result (A : Type) :=
| Ok (a : A)
| Raise (e : exn).
Arguments Ok {A} a.
Arguments Raise {A} e.

(** ** The HTTP client, as this code drives it *)

(** [httpx.Timeout], in seconds. *)
Record Timeout := {
  t_connect : Z;
  t_read : Z;
  t_write : Z;
  t_pool : Z
}.

Record HttpRequest := {
  req_method : str;
  req_url : str;
  req_headers : list (str * str);
  req_json : option pydict;
  req_timeout : Timeout
}.

(** An [httpx.Response] as observed here.  The body arrives as [chunks];
    [read_failure] is an exception the transport raises after them.
    [text] is [response.text]; [json_value] is the outcome of decoding the
    body as JSON ([json.loads], [response.json()]), [None] when that raises
    [ValueError], whose text is then [json_error]; [text_utf8_ignore] is
    [content.decode("utf-8", errors="ignore")]. *)
Record HttpResponse := {
  status_code : Z;
  chunks : list bytes;
  read_failure : option exn;
  text : str;
  json_value : option json;
  json_error : str;
  text_utf8_ignore : str
}.

(** What sending one request leads to: an exception before any response, or
    a response. *)
Inductive exchange :=
| Failed (e : exn)
| Received (r : HttpResponse).

Definition Transport := HttpRequest -> exchange.

(** ** Effects: requests sent, chunks yielded, exceptions *)

Record trace (A : Type) := {
  sent : list HttpRequest;
  emitted : list bytes;
  outcome : result A
}.
Arguments sent {A} t.
Arguments emitted {A} t.
Arguments outcome {A} t.

Definition M (A : Type) := Transport -> trace A.

Definition ret {A} (a : A) : M A :=
  fun _ => {| sent := []; emitted := []; outcome := Ok a |}.

Definition raise {A} (e : exn) : M A :=
  fun _ => {| sent := []; emitted := []; outcome := Raise e |}.

Definition bind {A B} (m : M A) (k : A -> M B) : M B :=
  fun net =>
    let t := m net in
    match outcome t with
    | Ok a =>
      let t' := k a net in
      {| sent := sent t ++ sent t';
         emitted := emitted t ++ emitted t';
         outcome := outcome t' |}
    | Raise e => {| sent := sent t; emitted := emitted t; outcome := Raise e |}
    end.

Declare Scope py_scope.
Delimit Scope py_scope with py.
Notation "x <- m ;; k" := (bind m (fun x => k))
  (at level 61, m at next level, right associativity) : py_scope.
Notation "m ;;; k" := (bind m (fun _ => k))
  (at level 61, right associativity) : py_scope.
Open Scope py_scope.

Definition lift {A} (r : result A) : M A :=
  match r with Ok a => ret a | Raise e => raise e end.

(** [yield chunk] *)
Definition yield (chunk : bytes) : M unit :=
  fun _ => {| sent := []; emitted := [chunk]; outcome := Ok tt |}.

(** [try: m  except ...:] the handler picks the first matching clause, or
    [None] when no clause matches and the exception goes on. *)
Definition try_except {A} (m : M A) (handler : exn -> option (M A)) : M A :=
  fun net =>
    let t := m net in
    match outcome t with
    | Ok _ => t
    | Raise e =>
      match handler e with
      | Some k =>
        let t' := k net in
        {| sent := sent t ++ sent t';
           emitted := emitted t ++ emitted t';
           outcome := outcome t' |}
      | None => t
      end
    end.

(** [async with client.stream(...) as response]: the request goes out and
    the response head is there; the body is not read yet. *)
Definition client_stream (req : HttpRequest) : M HttpResponse :=
  fun net =>
    {| sent := [req]; emitted := [];
       outcome := match net req with
                  | Failed e => Raise e
                  | Received r => Ok r
                  end |}.

(** [await client.post(...)], [await client.get(...)]: the whole body is
    read before the call returns. *)
Definition client_send (req : HttpRequest) : M HttpResponse :=
  fun net =>
    {| sent := [req]; emitted := [];
       outcome := match net req with
                  | Failed e => Raise e
                  | Received r =>
                    match read_failure r with
                    | Some e => Raise e
                    | None => Ok r
                    end
                  end |}.

(** [await response.aread()] *)
Definition aread (r : HttpResponse) : M bytes :=
  match read_failure r with
  | Some e => raise e
  | None => ret (List.concat (chunks r))
  end.

(** [async for chunk in response.aiter_bytes(): body] *)
Fixpoint for_each (cs : list bytes) (body : bytes -> M unit) : M unit :=
  match cs with
  | [] => ret tt
  | c :: r => body c ;;; for_each r body
  end.

Definition aiter_bytes (r : HttpResponse) (body : bytes -> M unit) : M unit :=
  for_each (chunks r) body ;;;
  match read_failure r with
  | Some e => raise e
  | None => ret tt
  end.

(** ** The runtime's Unicode tables and version-dependent checks

    What the embedding cannot compute is taken as an interface: case
    mapping, normalisation and printability outside ASCII, and the address
    check of [urllib.parse._check_bracketed_host]. *)

Definition is_ascii (c : codepoint) : bool := (c <? 128)%N.

Definition ascii_lower (c : codepoint) : codepoint :=
  if ((65 <=? c) && (c <=? 90))%N then (c + 32)%N else c.

Class PyRuntime := {
  (** [str.lower] *)
  str_lower : str -> str;
  str_lower_ascii :
    forall s, forallb is_ascii s = true -> str_lower s = map ascii_lower s;
  (** [unicodedata.normalize("NFKC", s)] *)
  nfkc : str -> str;
  (** [_check_bracketed_host] on the text between the brackets: [None]
      when it returns, the text of the [ValueError] when it raises *)
  check_bracketed_host : str -> option str;
  (** [Py_UNICODE_ISPRINTABLE], consulted above U+007F only *)
  isprintable : codepoint -> bool
}.

(** ** [urllib.parse.urlparse], as far as [_normalize_base_url] reads it

    After CPython 3.12, [Lib/urllib/parse.py]: [urlsplit] up to the network
    location (query, fragment and parameters are split off the rest, which
    this code never reads), [_checknetloc], and the [hostname] property. *)

Section Urllib.
Context {rt : PyRuntime}.

Record ParseResult := {
  scheme : str;
  netloc : str;
  rest : str
}.

(** The prefix before the first code point satisfying [p], and the
    remainder starting at it. *)
Fixpoint span_until (p : codepoint -> bool) (s : str) : str * str :=
  match s with
  | [] => ([], [])
  | c :: r =>
    if p c then ([], s)
    else let (a, b) := span_until p r in (c :: a, b)
  end.

Definition is_cp (c : codepoint) : codepoint -> bool := N.eqb c.

Definition contains (c : codepoint) (s : str) : bool := existsb (is_cp c) s.

(** [s.partition(c)]: before, whether [c] was found, after. *)
Definition partition (c : codepoint) (s : str) : str * bool * str :=
  let (a, b) := span_until (is_cp c) s in
  match b with
  | [] => (a, false, [])
  | _ :: r => (a, true, r)
  end.

(** [s.rpartition(c)[2]] *)
Definition after_last (c : codepoint) (s : str) : str :=
  rev (fst (span_until (is_cp c) (rev s))).

Definition is_ascii_alpha (c : codepoint) : bool :=
  ((65 <=? c) && (c <=? 90) || (97 <=? c) && (c <=? 122))%N.

(** [c in scheme_chars] *)
Definition is_scheme_char (c : codepoint) : bool :=
  is_ascii_alpha c || ((48 <=? c) && (c <=? 57))%N
  || (c =? 43)%N || (c =? 45)%N || (c =? 46)%N.

(** [_WHATWG_C0_CONTROL_OR_SPACE] *)
Definition is_c0_or_space (c : codepoint) : bool := (c <=? 32)%N.

(** [_UNSAFE_URL_BYTES_TO_REMOVE]: tab, carriage return, line feed *)
Definition is_unsafe_url_char (c : codepoint) : bool :=
  ((c =? 9) || (c =? 13) || (c =? 10))%N.

Definition is_netloc_delim (c : codepoint) : bool :=
  is_cp slash c || is_cp qmark c || is_cp hash c.

Definition _checknetloc (netloc : str) : result unit :=
  if negb (nonempty netloc) || forallb is_ascii netloc then Ok tt
  else
    let n := filter (fun c => negb (is_cp at_sign c || is_cp colon c
                                    || is_cp hash c || is_cp qmark c)) netloc in
    let netloc2 := nfkc n in
    if str_eqb n netloc2 then Ok tt
    else if existsb (fun c => contains c netloc2)
                    [slash; qmark; hash; at_sign; colon]
    then Raise (ValueError
                  (lit "netloc '" ++ netloc ++
                   lit "' contains invalid characters under NFKC normalization"))
    else Ok tt.

Definition urlparse (url : str) : result ParseResult :=
  let url := lstrip_by is_c0_or_space url in
  let url := filter (fun c => negb (is_unsafe_url_char c)) url in
  let '(scheme, url) :=
    let (pre, post) := span_until (is_cp colon) url in
    match pre, post with
    | c0 :: _, _ :: after =>
      if is_ascii_alpha c0 && forallb is_scheme_char pre
      then (str_lower pre, after)
      else ([], url)
    | _, _ => ([], url)
    end in
  match url with
  | 47%N :: 47%N :: tail =>
    let (netloc, url) := span_until is_netloc_delim tail in
    let open_br := contains lbracket netloc in
    let close_br := contains rbracket netloc in
    if open_br && negb close_br || close_br && negb open_br
    then Raise (ValueError (lit "Invalid IPv6 URL"))
    else
      match (if open_br && close_br
             then check_bracketed_host
                    (fst (fst (partition rbracket
                                 (snd (partition lbracket netloc)))))
             else None) with
      | Some msg => Raise (ValueError msg)
      | None =>
        match _checknetloc netloc with
        | Raise e => Raise e
        | Ok _ => Ok {| scheme := scheme; netloc := netloc; rest := url |}
        end
      end
  | _ => Ok {| scheme := scheme; netloc := []; rest := url |}
  end.

(** [parsed.hostname] *)
Definition hostname (parsed : ParseResult) : option str :=
  let hostinfo := after_last at_sign (netloc parsed) in
  let '(_, have_open_br, bracketed) := partition lbracket hostinfo in
  let hostname :=
    if have_open_br then fst (fst (partition rbracket bracketed))
    else fst (fst (partition colon hostinfo)) in
  if nonempty hostname then
    let '(name, has_percent, zone) := partition percent hostname in
    Some (str_lower name ++ (if has_percent then [percent] else []) ++ zone)
  else None.

(** ** [app/core/supplier_proxy.py] *)

Definition loopback_names : list str :=
  [lit "localhost"; lit "127.0.0.1"; lit "::1"].

Definition _normalize_base_url (base_url : str) : result str :=
  if negb (nonempty base_url) || negb (nonempty (strip base_url))
  then Raise (ValidationError (lit "API 地址不能为空") None)
  else
    match urlparse base_url with
    | Raise e => Raise e
    | Ok parsed =>
      if negb (nonempty (scheme parsed)) || negb (nonempty (netloc parsed))
      then Raise (ValidationError (lit "API 地址无效") None)
      else
        let host := match hostname parsed with Some h => h | None => [] end in
        if existsb (str_eqb (str_lower host)) loopback_names
        then Raise (ValidationError (lit "API 地址不能为 localhost") None)
        else Ok (rstrip_slash base_url)
    end.

(** [app/core/api_models.py], [SupplierModel]. *)
Record SupplierModel := { sm_id : str }.

(** *** The builtins [repr] and [str], applied to model identifiers *)

(** [n] as [k] lower-case hexadecimal digits. *)
Fixpoint hex_fixed (k : nat) (n : N) : str :=
  match k with
  | O => []
  | S k' => hex_fixed k' (n / 16) ++ [hex_digit (n mod 16)]
  end.

Definition squote : codepoint := 39%N.
Definition backslash : codepoint := 92%N.

(** One code point inside [repr(s)], for the chosen quote. *)
Definition repr_cp (quote : codepoint) (c : codepoint) : str :=
  if (c =? quote)%N || (c =? backslash)%N then [backslash; c]
  else if (c =? 9)%N then lit "\t"
  else if (c =? 10)%N then lit "\n"
  else if (c =? 13)%N then lit "\r"
  else if (c <? 32)%N || (c =? 127)%N then lit "\x" ++ hex_fixed 2 c
  else if (c <? 127)%N then [c]
  else if isprintable c then [c]
  else if (c <=? 255)%N then lit "\x" ++ hex_fixed 2 c
  else if (c <=? 65535)%N then lit "\u" ++ hex_fixed 4 c
  else lit "\U" ++ hex_fixed 8 c.

(** [repr(s)] for a [str]: single quotes, unless [s] holds a single quote
    and no double quote. *)
Definition repr_str (s : str) : str :=
  let quote :=
    if contains squote s && negb (contains 34%N s) then 34%N else squote in
  [quote] ++ flat_map (repr_cp quote) s ++ [quote].

(** The builtin [repr(v)]. *)
Fixpoint py_repr (v : json) : str :=
  match v with
  | JNull => lit "None"
  | JBool true => lit "True"
  | JBool false => lit "False"
  | JInt n => str_of_int n
  | JFloat f => fl_repr f
  | JStr s => repr_str s
  | JList l => lit "[" ++ join (lit ", ") (map py_repr l) ++ lit "]"
  | JDict d =>
    lit "{" ++
    join (lit ", ")
         (map (fun kv => repr_str (fst kv) ++ lit ": " ++ py_repr (snd kv)) d)
    ++ lit "}"
  end.

(** The builtin [str(v)]: the text itself for a [str], [repr] otherwise. *)
Definition py_str (v : json) : str :=
  match v with
  | JStr s => s
  | _ => py_repr v
  end.

(** *** [fetch_models] *)

(** The loop over [data]: one entry per dict whose ["id"] is truthy,
    appended in iteration order. *)
Definition collect_model (models : list SupplierModel) (item : json)
  : list SupplierModel :=
  match item with
  | JDict d =>
    if truthy (dict_get_default d (lit "id") JNull)
    then models ++ [{| sm_id := py_str (dict_get_default d (lit "id") JNull) |}]
    else models
  | _ => models
  end.

Definition client_timeout_10 : Timeout :=
  {| t_connect := 10; t_read := 10; t_write := 10; t_pool := 10 |}.

Definition fetch_models (base_url api_key : str) : M (list SupplierModel) :=
  if negb (nonempty api_key) || negb (nonempty (strip api_key))
  then raise (ValidationError (lit "API Key 不能为空") None)
  else
    normalized <- lift (_normalize_base_url base_url) ;;
    let url := normalized ++ lit "/v1/models" in
    response <-
      try_except
        (client_send
           {| req_method := lit "GET";
              req_url := url;
              req_headers :=
                [(lit "Accept", lit "application/json");
                 (lit "Authorization", lit "Bearer " ++ api_key)];
              req_json := None;
              req_timeout := client_timeout_10 |})
        (fun error =>
           if is_httpx_timeout error
           then Some (raise (TimeoutError (lit "Request timed out")))
           else if is_httpx_request_error error
           then Some (raise (NetworkError
                               (lit "Network request failed")
                               (Some (JDict [(lit "error", JStr (exn_str error))]))))
           else None) ;;
    if status_code response =? 401
    then raise (UnauthorizedError (lit "Unauthorized"))
    else if status_code response =? 429
    then raise (RateLimitedError (lit "Rate limit exceeded"))
    else if status_code response >=? 400
    then raise (NetworkError
                  (lit "Upstream error: " ++ str_of_int (status_code response))
                  (Some (JDict [(lit "status_code", JInt (status_code response))])))
    else
      match json_value response with
      | None =>
        raise (ValidationError
                 (lit "响应解析失败")
                 (Some (JDict [(lit "error", JStr (json_error response))])))
      | Some payload =>
        let data :=
          match payload with
          | JDict d => dict_get_default d (lit "data") JNull
          | _ => JNull
          end in
        match data with
        | JList items => ret (fold_left collect_model items [])
        | _ => ret []
        end
      end.

End Urllib.

(** ** [app/api/proxy.py] *)

(** [app/core/api_models.py], [SupplierChatRequest].  [tool_choice] is
    [Optional[Any]]: any value, [JNull] standing for [None]. *)
Record SupplierChatRequest := {
  base_url : str;
  api_key : str;
  model : str;
  messages : list json;
  stream : bool;
  temperature : option PyFloat;
  tools : option (list json);
  tool_choice : json
}.

Definition _format_error_event (code : str) (message : json) : result bytes :=
  let payload :=
    json_dumps (JDict [(lit "code", JStr code); (lit "message", message)]) in
  match utf8_encode (lit "event: error" ++ nl ++ lit "data: " ++ payload
                     ++ nl ++ nl) with
  | Some b => Ok b
  | None => Raise UnicodeEncodeError
  end.

Definition _map_error_code (status_code : Z) : str :=
  if status_code =? 401 then lit "UNAUTHORIZED"
  else if status_code =? 429 then lit "RATE_LIMITED"
  else if status_code =? 400 then lit "VALIDATION_ERROR"
  else lit "UPSTREAM_ERROR".

(** [parsed.get("error", {}).get("message", parsed.get("message", message))]:
    the inner [.get] is an attribute of whatever ["error"] holds, and only a
    dict has it. *)
Definition upstream_message (parsed : pydict) (message : json) : result json :=
  match dict_get_default parsed (lit "error") (JDict []) with
  | JDict err =>
    Ok (dict_get_default err (lit "message")
          (dict_get_default parsed (lit "message") message))
  | _ => Raise (AttributeError (lit "object has no attribute 'get'"))
  end.

(** [httpx.Timeout(60.0, connect=10.0, read=60.0)] *)
Definition chat_timeout : Timeout :=
  {| t_connect := 10; t_read := 60; t_write := 60; t_pool := 60 |}.

Definition _stream_chat (payload : SupplierChatRequest) (base_url : str)
  : M unit :=
  let url := base_url ++ lit "/v1/chat/completions" in
  let body :=
    [(lit "model", JStr (model payload));
     (lit "messages", JList (messages payload));
     (lit "stream", JBool true)] in
  let body :=
    match temperature payload with
    | Some t => dict_set body (lit "temperature") (JFloat t)
    | None => body
    end in
  let body :=
    match tools payload with
    | Some ts => dict_set body (lit "tools") (JList ts)
    | None => body
    end in
  let body :=
    if negb (is_none (tool_choice payload))
    then dict_set body (lit "tool_choice") (tool_choice payload)
    else body in
  let headers :=
    [(lit "Accept", lit "text/event-stream");
     (lit "Content-Type", lit "application/json");
     (lit "Authorization", lit "Bearer " ++ api_key payload)] in
  let timeout := chat_timeout in
  try_except
    (response <- client_stream
                   {| req_method := lit "POST"; req_url := url;
                      req_headers := headers; req_json := Some body;
                      req_timeout := timeout |} ;;
     if status_code response >=? 400 then
       let code := _map_error_code (status_code response) in
       let message :=
         JStr (lit "Upstream error (" ++ str_of_int (status_code response)
               ++ lit ")") in
       raw <- aread response ;;
       message <-
         (if nonempty raw then
            match json_value response with
            | Some parsed =>
              match parsed with
              | JDict d => lift (upstream_message d message)
              | _ => ret message
              end
            | None =>
              let text := strip (text_utf8_ignore response) in
              if nonempty text then ret (JStr text) else ret message
            end
          else ret message) ;;
       event <- lift (_format_error_event code message) ;;
       yield event
     else
       aiter_bytes response
         (fun chunk => if nonempty chunk then yield chunk else ret tt))
    (fun e =>
       if is_httpx_timeout e
       then Some (event <- lift (_format_error_event
                                   (lit "TIMEOUT")
                                   (JStr (lit "Request timed out"))) ;;
                  yield event)
       else if is_httpx_request_error e
       then Some (event <- lift (_format_error_event
                                   (lit "NETWORK_ERROR")
                                   (JStr (lit "Network request failed"))) ;;
                  yield event)
       else None).

(** What a route hands to the framework. *)
Inductive Response :=
| JSONResponse (status_code : Z) (content : json)
| StreamingResponse (content : M unit) (media_type : str)
                    (headers : list (str * str)).

Definition _request_chat (payload : SupplierChatRequest) (base_url : str)
  : M Response :=
  let url := base_url ++ lit "/v1/chat/completions" in
  let body :=
    [(lit "model", JStr (model payload));
     (lit "messages", JList (messages payload));
     (lit "stream", JBool false)] in
  let body :=
    match temperature payload with
    | Some t => dict_set body (lit "temperature") (JFloat t)
    | None => body
    end in
  let body :=
    match tools payload with
    | Some ts => dict_set body (lit "tools") (JList ts)
    | None => body
    end in
  let body :=
    if negb (is_none (tool_choice payload))
    then dict_set body (lit "tool_choice") (tool_choice payload)
    else body in
  let headers :=
    [(lit "Accept", lit "application/json");
     (lit "Content-Type", lit "application/json");
     (lit "Authorization", lit "Bearer " ++ api_key payload)] in
  let timeout := chat_timeout in
  response <- client_send
                {| req_method := lit "POST"; req_url := url;
                   req_headers := headers; req_json := Some body;
                   req_timeout := timeout |} ;;
  if status_code response >=? 400 then
    let code := _map_error_code (status_code response) in
    let message :=
      JStr (lit "Upstream error (" ++ str_of_int (status_code response)
            ++ lit ")") in
    let raw := text response in
    message <-
      (if nonempty raw then
         match json_value response with
         | Some parsed =>
           match parsed with
           | JDict d => lift (upstream_message d message)
           | _ => ret message
           end
         | None =>
           if nonempty (strip raw) then ret (JStr (strip raw)) else ret message
         end
       else ret message) ;;
    ret (JSONResponse
           (status_code response)
           (JDict [(lit "error",
                    JDict [(lit "message", message);
                           (lit "code", JStr code)])]))
  else
    let content :=
      match json_value response with
      | Some v => v
      | None => JDict [(lit "message", JStr (text response))]
      end in
    ret (JSONResponse (status_code response) content).

Definition proxy_chat {rt : PyRuntime} (payload : SupplierChatRequest)
  : M Response :=
  if negb (nonempty (api_key payload))
     || negb (nonempty (strip (api_key payload)))
  then raise (ValidationError (lit "API Key 不能为空") None)
  else
    normalized <- lift (_normalize_base_url (base_url payload)) ;;
    if stream payload then
      ret (StreamingResponse
             (_stream_chat payload normalized)
             (lit "text/event-stream")
             [(lit "Cache-Control", lit "no-cache");
              (lit "Connection", lit "keep-alive")])
    else _request_chat payload normalized.

(** ** A runtime that is exact on ASCII text

    Case mapping touches the letters A to Z only, normalisation is the
    identity, every code point above U+007F counts as printable, and the
    bracketed-host check accepts (as CPython did before it was
    introduced).  The concrete runs below use ASCII text only. *)

Definition ascii_str_lower (s : str) : str := map ascii_lower s.

Definition ascii_runtime : PyRuntime := {|
  str_lower := ascii_str_lower;
  str_lower_ascii := fun s _ => eq_refl;
  nfkc := fun s => s;
  check_bracketed_host := fun _ => None;
  isprintable := fun _ => true
|}.

(** ** Specification vocabulary and sample data *)

(** A call that fails with [VALIDATION_ERROR] before any network activity. *)
Definition rejected_before_network {A} (t : trace A) : Prop :=
  sent t = [] /\ emitted t = [] /\
  exists e, outcome t = Raise e /\ error_kind e = lit "VALIDATION_ERROR".

Definition sample_message : json :=
  JDict [(lit "role", JStr (lit "user")); (lit "content", JStr (lit "hi"))].

Definition sample_payload (key : str) (streaming : bool)
  : SupplierChatRequest :=
  {| base_url := lit "https://api.example.com/";
     api_key := key;
     model := lit "gpt-a";
     messages := [sample_message];
     stream := streaming;
     temperature := None;
     tools := None;
     tool_choice := JNull |}.

(** An upstream that never answers in time. *)
Definition net_timeout : Transport := fun _ => Failed HttpxTimeoutException.

(** An upstream that refuses the connection. *)
Definition net_refused : Transport :=
  fun _ => Failed (HttpxRequestError (lit "All connection attempts failed")).

(** A response whose body arrived whole. *)
Definition response_of (status : Z) (body : list bytes) (body_text : str)
    (parsed : option json) : HttpResponse :=
  {| status_code := status;
     chunks := body;
     read_failure := None;
     text := body_text;
     json_value := parsed;
     json_error := lit "Expecting value: line 1 column 1 (char 0)";
     text_utf8_ignore := body_text |}.

(** The body an outgoing chat request must carry: the three fixed keys,
    each optional key exactly when the request has the field, and no key
    bound to [null]. *)
Definition chat_body_for (payload : SupplierChatRequest) (streaming : bool)
    (body : pydict) : Prop :=
  dict_get body (lit "model") = Some (JStr (model payload)) /\
  dict_get body (lit "messages") = Some (JList (messages payload)) /\
  dict_get body (lit "stream") = Some (JBool streaming) /\
  (dict_has body (lit "temperature") = true <-> temperature payload <> None) /\
  (dict_has body (lit "tools") = true <-> tools payload <> None) /\
  (dict_has body (lit "tool_choice") = true <-> tool_choice payload <> JNull) /\
  (forall k, dict_get body k <> Some JNull).

(** A response whose body is the JSON text of [v]. *)
Definition response_with_json (status : Z) (v : json) : HttpResponse :=
  response_of status
    [match utf8_encode (json_dumps v) with Some b => b | None => [] end]
    (json_dumps v) (Some v).

(** The error body [{"error": "boom"}]: the member is a string, not an
    object. *)
Definition error_string_body : json :=
  JDict [(lit "error", JStr (lit "boom"))].

(** A computation that sends nothing to the upstream. *)
Definition silent {A} (m : M A) : Prop := forall net, sent (m net) = [].

(** The two events [_stream_chat] yields from its [except] clauses. *)
Definition timeout_event : bytes :=
  Eval vm_compute in
  match _format_error_event (lit "TIMEOUT") (JStr (lit "Request timed out")) with
  | Ok b => b
  | Raise _ => []
  end.

Definition network_error_event : bytes :=
  Eval vm_compute in
  match _format_error_event (lit "NETWORK_ERROR")
          (JStr (lit "Network request failed")) with
  | Ok b => b
  | Raise _ => []
  end.

(** The loop body of the relay: [if chunk: yield chunk]. *)
Definition relay (chunk : bytes) : M unit :=
  if nonempty chunk then yield chunk else ret tt.

(** A healthy streamed answer: three chunks, the middle one empty. *)
Definition sample_stream_response : HttpResponse :=
  {| status_code := 200;
     chunks := [[x64; x61; x74; x61]; []; [x3a; x20; x7b; x7d; x0a; x0a]];
     read_failure := None;
     text := [];
     json_value := None;
     json_error := [];
     text_utf8_ignore := [] |}.

(** The text of one SSE error event, spelled out:
    [event: error], a line feed, [data: ] and the object
    [{"code": "<kind>", "message": "<message>"}] with both strings
    JSON-escaped, then the blank line. *)
Definition sse_error_text (kind message : str) : str :=
  lit "event: error" ++ nl ++
  lit "data: {" ++ dquote ++ lit "code" ++ dquote ++ lit ": " ++
  dquote ++ flat_map json_escape_cp kind ++ dquote ++
  lit ", " ++ dquote ++ lit "message" ++ dquote ++ lit ": " ++
  dquote ++ flat_map json_escape_cp message ++ dquote ++
  lit "}" ++ nl ++ nl.

(** Unicode text: every code point is a scalar value (no surrogate). *)
Definition well_formed (s : str) : Prop := forallb is_scalar s = true.

(** A lone surrogate, as [json.loads] returns for the JSON text
    ["\ud800"]. *)
Definition lone_surrogate : str := [55296%N].

(** An error answer with an empty body. *)
Definition empty_error_response (status : Z) : HttpResponse :=
  response_of status [] [] None.

(** The generator yielded at most one chunk, and it is an error event of
    the given kind. *)
Definition stream_emits_kind (t : trace unit) (kind : str) : Prop :=
  (List.length (emitted t) <= 1)%nat /\
  forall ev, In ev (emitted t) ->
             exists message, _format_error_event kind message = Ok ev.

(** Whatever the buffered call returns is the error payload of the given
    kind under the upstream's status. *)
Definition buffered_returns_kind (t : trace Response) (status : Z) (kind : str)
  : Prop :=
  forall resp, outcome t = Ok resp ->
    exists message,
      resp = JSONResponse status
               (JDict [(lit "error",
                        JDict [(lit "message", message);
                               (lit "code", JStr kind)])]).

(** The model list the specification asks for: the elements of [data] that
    are objects with a truthy ["id"], in their order, each giving one entry
    with that id as text. *)
Definition model_entries_spec {rt : PyRuntime} (data : list json)
  : list SupplierModel :=
  flat_map
    (fun item =>
       match item with
       | JDict d =>
         match dict_get d (lit "id") with
         | Some v => if truthy v then [{| sm_id := py_str v |}] else []
         | None => []
         end
       | _ => []
       end)
    data.

(** The body [{"data":[{"id":"gpt-a"},{"no_id":true},{"id":""}]}]. *)
Definition sample_models_body : json :=
  JDict [(lit "data",
          JList [JDict [(lit "id", JStr (lit "gpt-a"))];
                 JDict [(lit "no_id", JBool true)];
                 JDict [(lit "id", JStr [])]])].

(** The parsed body is an object whose ["data"] is an array. *)
Definition has_data_array (payload : json) : Prop :=
  exists d items, payload = JDict d /\ dict_get d (lit "data") = Some (JList items).

(** A raw line feed or carriage return. *)
Definition is_line_break (c : codepoint) : bool := ((c =? 10) || (c =? 13))%N.

(** A computation that yields nothing. *)
Definition quiet {A} (m : M A) : Prop := forall net, emitted (m net) = [].

(** A request whose base URL names the loopback host. *)
Definition loopback_payload : SupplierChatRequest :=
  {| base_url := lit "http://localhost:11434";
     api_key := lit "sk-test";
     model := lit "gpt-a";
     messages := [sample_message];
     stream := false;
     temperature := None;
     tools := None;
     tool_choice := JNull |}.

(** The transport raises [e] whenever a request is sent with the body read
    in full: before any response, or while the body is read. *)
Definition send_raises (net : Transport) (e : exn) : Prop :=
  forall req, outcome (client_send req net) = Raise e.






(** A streamed answer cut by a read timeout after two chunks. *)
Definition cut_stream_response : HttpResponse :=
  {| status_code := 200;
     chunks := [[x64; x61; x74; x61]; [x3a; x20]];
     read_failure := Some HttpxTimeoutException;
     text := [];
     json_value := None;
     json_error := [];
     text_utf8_ignore := [] |}.

(** ** [app/main.py]: the CORS origins *)

Definition comma : codepoint := 44%N.
Definition dot : codepoint := 46%N.

(** [s.split(c)] for a one-character separator: every occurrence splits,
    empty pieces are kept, and the result is never empty. *)
Fixpoint split_on (c : codepoint) (s : str) : list str :=
  match s with
  | [] => [[]]
  | x :: r =>
    if (x =? c)%N then [] :: split_on c r
    else match split_on c r with
         | p :: ps => (x :: p) :: ps
         | [] => [[x]]
         end
  end.

(** [cors_origins = os.getenv("ARCAMAGE_CORS_ORIGINS", "*")] and the list
    handed to the CORS middleware. *)
Definition allow_origins (env : option str) : list str :=
  let cors_origins := match env with Some v => v | None => lit "*" end in
  if negb (str_eqb cors_origins (lit "*"))
  then split_on comma cors_origins
  else [lit "*"].

(** ** [app/settings.py] *)

Record Settings := {
  max_upload_mb : Z
}.

Definition max_upload_bytes (self : Settings) : Z :=
  max_upload_mb self * 1024 * 1024.

(** The defaults of the class. *)
Definition default_settings : Settings := {| max_upload_mb := 20 |}.

(** ** [app/api/remote_import.py] *)

(** The builtin [int(s)] on a [str]: [None] when it raises [ValueError].
    Taken as an interface (Unicode digits, digit limits); what is used of
    it is that it reads back the decimal text of an integer of at most 640
    characters. *)
Class PyInt := {
  py_int : str -> option Z;
  py_int_str_of_int :
    forall z, (List.length (str_of_int z) <= 640)%nat ->
              py_int (str_of_int z) = Some z
}.

Module RemoteImport.

Section WithInt.
Context {pi : PyInt}.

Definition MIN_ARCAFERRY_VERSION : str := lit "0.1.0".

(** What the body of [parse_version] can raise. *)
Inductive version_exn := VersionValueError | VersionIndexError.

(** [parts[i]] *)
Definition part (parts : list str) (i : nat) : version_exn + str :=
  match nth_error parts i with
  | Some p => inr p
  | None => inl VersionIndexError
  end.

(** [int(parts[i])] *)
Definition int_part (parts : list str) (i : nat) : version_exn + Z :=
  match part parts i with
  | inl e => inl e
  | inr p =>
    match py_int p with
    | Some n => inr n
    | None => inl VersionValueError
    end
  end.

Definition parse_version (version : str) : Z * Z * Z :=
  let parts := split_on dot version in
  let body :=
    match int_part parts 0 with
    | inl e => inl e
    | inr major =>
      match int_part parts 1 with
      | inl e => inl e
      | inr minor =>
        if (2 <? List.length parts)%nat then
          match int_part parts 2 with
          | inl e => inl e
          | inr patch => inr (major, minor, patch)
          end
        else inr (major, minor, 0)
      end
    end in
  match body with
  | inr t => t
  | inl VersionValueError | inl VersionIndexError => (0, 0, 0)
  end.

(** [a < b] on 3-tuples of [int]. *)
Definition tuple_lt (a b : Z * Z * Z) : bool :=
  let '(a0, a1, a2) := a in
  let '(b0, b1, b2) := b in
  (a0 <? b0) || (a0 =? b0) && ((a1 <? b1) || (a1 =? b1) && (a2 <? b2)).

Definition check_version_compatibility (client_version : option str)
  : option str :=
  match client_version with
  | None => None
  | Some v =>
    if negb (nonempty v) then None
    else
      let client := parse_version v in
      let minimum := parse_version MIN_ARCAFERRY_VERSION in
      if tuple_lt client minimum
      then Some (lit "Arcaferry version " ++ v
                 ++ lit " is not compatible. Minimum required: "
                 ++ MIN_ARCAFERRY_VERSION)
      else None
  end.

End WithInt.

(** *** The pending imports kept on [request.app.state] *)

(** A [dict] from card id to the stored entry, in insertion order. *)
Definition store (V : Type) := list (str * V).

Fixpoint store_get {V} (d : store V) (k : str) : option V :=
  match d with
  | [] => None
  | (k', v) :: r => if str_eqb k' k then Some v else store_get r k
  end.

(** [d[k] = v] *)
Fixpoint store_set {V} (d : store V) (k : str) (v : V) : store V :=
  match d with
  | [] => [(k, v)]
  | (k', v') :: r =>
    if str_eqb k' k then (k', v) :: r else (k', v') :: store_set r k v
  end.

(** [d.pop(k)], the dict that is left. *)
Definition store_remove {V} (d : store V) (k : str) : store V :=
  filter (fun kv => negb (str_eqb (fst kv) k)) d.

(** [request.app.state.pending_imports]: [None] while the attribute has not
    been set; each entry is the dict [{"card": ..., "name": ...}]. *)
Definition app_state := option (store pydict).

(** [getattr(request.app.state, "pending_imports", {})] *)
Definition pending_of (st : app_state) : store pydict :=
  match st with Some p => p | None => [] end.

Inductive route_exn :=
| HTTPException (status_code : Z) (detail : str)
| KeyError (key : str).

Definition get_pending_imports (st : app_state) : json :=
  let pending := pending_of st in
  JDict [(lit "count", JInt (Z.of_nat (List.length pending)));
         (lit "cards",
          JList (map (fun kv =>
                        JDict [(lit "id", JStr (fst kv));
                               (lit "name",
                                dict_get_default (snd kv) (lit "name")
                                  (JStr (lit "Unknown")))])
                     pending))].

(** The result, and the state the call leaves.  [pop] acts on the stored
    dict; when the attribute is absent there is nothing to pop. *)
Definition get_pending_card (st : app_state) (card_id : str)
  : (route_exn + json) * app_state :=
  let pending := pending_of st in
  match store_get pending card_id with
  | None => (inl (HTTPException 404 (lit "Card not found")), st)
  | Some card_data =>
    let st' := Some (store_remove pending card_id) in
    match dict_get card_data (lit "card") with
    | Some card => (inr (JDict [(lit "success", JBool true);
                                (lit "card", card)]), st')
    | None => (inl (KeyError (lit "card")), st')
    end
  end.

Record RemoteImportResponse := {
  success : bool;
  card_id : option str;
  message : option str;
  error_code : option str
}.

(** What a collaborator's call leads to: its value, the exception the route
    handles by name, or any other exception (with its [str()]). *)
Inductive call (A E : Type) :=
| Returned (a : A)
| Refused (e : E)
| Crashed (text : str).
Arguments Returned {A E} a.
Arguments Refused {A E} e.
Arguments Crashed {A E} text.

Section ImportRoute.

(** The card model and the importers live in [app.core], outside these
    sources: a validated card, its dump and its name, [import_card] (which
    refuses with [CardImportError] and its text) and
    [CharacterCardV3.model_validate] (which refuses with a pydantic
    [ValidationError] and its error count). *)
Variable Card : Type.
Variable model_dump : Card -> json.
Variable card_name : Card -> str.
Variable import_card : bytes -> call Card str.
Variable model_validate : json -> call Card Z.
Context {pi : PyInt}.

(** [await file.read()]: the content, or an exception with its text. *)
Inductive upload :=
| UploadRead (content : bytes)
| UploadFailed (text : str).

(** One request, as the route reads it: the upload, the two headers,
    [await request.json()] (which refuses with [JSONDecodeError] and its
    text), and the text of the UUID drawn. *)
Record ImportRequest := {
  file : option upload;
  x_arcaferry_version : option str;
  content_type : str;
  request_json : call json str;
  uuid4 : str
}.

(** [sub in s] *)
Fixpoint is_prefix (sub s : str) : bool :=
  match sub, s with
  | [], _ => true
  | a :: sub', b :: s' => (a =? b)%N && is_prefix sub' s'
  | _ :: _, [] => false
  end.

Fixpoint str_in (sub s : str) : bool :=
  is_prefix sub s ||
  match s with
  | [] => false
  | _ :: r => str_in sub r
  end.

Definition failure (code message : str) : RemoteImportResponse :=
  {| success := false; card_id := None;
     message := Some message; error_code := Some code |}.

(** The tail of the route once a card is at hand. *)
Definition keep_card (st : app_state) (uuid : str) (card : Card)
  : RemoteImportResponse * app_state :=
  let card_id := firstn 8 uuid in
  let pending := pending_of st in
  ({| success := true;
      card_id := Some card_id;
      message := Some (lit "Card '" ++ card_name card
                       ++ lit "' imported successfully");
      error_code := None |},
   Some (store_set pending card_id
           [(lit "card", model_dump card);
            (lit "name", JStr (card_name card))])).

(** The route from [settings = get_settings()] on. *)
Definition import_body (settings : Settings) (request : ImportRequest)
    (st : app_state) : RemoteImportResponse * app_state :=
  match file request with
  | Some (UploadFailed text) => (failure (lit "INTERNAL_ERROR") text, st)
  | Some (UploadRead content) =>
    if Z.of_nat (List.length content) >? max_upload_bytes settings
    then (failure (lit "VALIDATION_ERROR")
            (lit "File too large. Maximum size is "
             ++ str_of_int (max_upload_mb settings) ++ lit "MB"), st)
    else
      match import_card content with
      | Refused e => (failure (lit "VALIDATION_ERROR") e, st)
      | Crashed text => (failure (lit "INTERNAL_ERROR") text, st)
      | Returned card => keep_card st (uuid4 request) card
      end
  | None =>
    if str_in (lit "application/json") (content_type request) then
      match request_json request with
      | Refused e =>
        (failure (lit "VALIDATION_ERROR") (lit "Invalid JSON: " ++ e), st)
      | Crashed text => (failure (lit "INTERNAL_ERROR") text, st)
      | Returned body =>
        match model_validate body with
        | Refused count =>
          (failure (lit "VALIDATION_ERROR")
             (lit "Invalid card format: " ++ str_of_int count
              ++ lit " validation errors"), st)
        | Crashed text => (failure (lit "INTERNAL_ERROR") text, st)
        | Returned card => keep_card st (uuid4 request) card
        end
      end
    else
      (failure (lit "VALIDATION_ERROR")
         (lit "Unsupported content type. Use application/json or multipart/form-data with PNG file."),
       st)
  end.

Definition import_remote_card (settings : Settings) (request : ImportRequest)
    (st : app_state) : RemoteImportResponse * app_state :=
  match check_version_compatibility (x_arcaferry_version request) with
  | Some version_error =>
    if nonempty version_error
    then (failure (lit "VERSION_MISMATCH") version_error, st)
    else import_body settings request st
  | None => import_body settings request st
  end.

End ImportRoute.

End RemoteImport.


(** ** [app/api/suppliers.py] *)

Module Suppliers.

(** [app/core/api_models.py]: the response wrapper and the two results. *)
Record ApiResponse (T : Type) := {
  success : bool;
  data : option T;
  error : option str;
  error_code : option ErrorCode
}.
Arguments success {T} a.
Arguments data {T} a.
Arguments error {T} a.
Arguments error_code {T} a.

Record SupplierConnectionResult := {
  connection_success : bool;
  connection_message : str;
  connection_models : list SupplierModel
}.

Record SupplierModelsResult := {
  models : list SupplierModel
}.

Record SupplierConnectionRequest := {
  connection_base_url : str;
  connection_api_key : str;
  connection_model : option str;
  connection_use_proxy : bool
}.

Record SupplierModelsRequest := {
  models_base_url : str;
  models_api_key : str;
  models_use_proxy : bool
}.

Section Routes.
Context {rt : PyRuntime}.

Definition test_supplier_connection (payload : SupplierConnectionRequest)
  : M (ApiResponse SupplierConnectionResult) :=
  models <- fetch_models (connection_base_url payload)
                         (connection_api_key payload) ;;
  let result :=
    {| connection_success := true;
       connection_message := lit "连接成功";
       connection_models := models |} in
  ret {| success := true; data := Some result;
         error := None; error_code := None |}.

Definition get_supplier_models (payload : SupplierModelsRequest)
  : M (ApiResponse SupplierModelsResult) :=
  models <- fetch_models (models_base_url payload) (models_api_key payload) ;;
  ret {| success := true; data := Some {| models := models |};
         error := None; error_code := None |}.

End Routes.

End Suppliers.

(** ** More specification vocabulary *)

(** A character of the decimal text of an [int]: a digit or the minus
    sign. *)
Definition is_int_char (c : codepoint) : bool :=
  ((c =? 45) || (48 <=? c) && (c <=? 57))%N.

(** The decimal text of an integer is short enough for [int] to read it
    back under every digit limit. *)
Definition short_decimal (z : Z) : Prop :=
  (List.length (str_of_int z) <= 640)%nat.

(** [(0, 1, 0) <= (a, b, c)] in the order of tuples. *)
Definition at_least_0_1_0 (a b c : Z) : Prop :=
  0 < a \/ (a = 0 /\ (1 < b \/ (b = 1 /\ 0 <= c))).

(** The text [a.b.c]. *)
Definition dotted (a b c : Z) : str :=
  str_of_int a ++ [dot] ++ str_of_int b ++ [dot] ++ str_of_int c.

(** A reader of plain decimal text, through the standard library's. *)
Definition ascii_string_of (s : str) : string :=
  string_of_list_byte (map byte_of_N s).

Definition decimal_int (s : str) : option Z :=
  option_map Z.of_int (NilZero.int_of_string (ascii_string_of s)).

(** A byte of the decimal text of an [int]. *)
Definition is_int_byte (b : byte) : Prop := is_int_char (Byte.to_N b) = true.

(** The entry the import route stores for a card. *)
Definition pending_entry (dump : json) (name : str) : pydict :=
  [(lit "card", dump); (lit "name", JStr name)].

(** The ["cards"] list of a pending listing. *)
Definition listed_cards (listing : json) : list json :=
  match listing with
  | JDict d =>
    match dict_get d (lit "cards") with
    | Some (JList cards) => cards
    | _ => []
    end
  | _ => []
  end.

(** A toy card model for the concrete runs: a card is its name, a body is
    valid when it is a JSON string, an upload when it is not empty. *)
Definition toy_dump (name : str) : json :=
  JDict [(lit "data", JDict [(lit "name", JStr name)])].

Definition toy_import (content : bytes) : RemoteImport.call str str :=
  match content with
  | [] => RemoteImport.Refused (lit "empty file")
  | _ => RemoteImport.Returned (lit "Alice")
  end.

Definition toy_validate (body : json) : RemoteImport.call str Z :=
  match body with
  | JStr name => RemoteImport.Returned name
  | _ => RemoteImport.Refused 1
  end.

Definition toy_request (version : option str) (upload : option RemoteImport.upload)
    (ctype : str) (body : json) : RemoteImport.ImportRequest :=
  {| RemoteImport.file := upload;
     RemoteImport.x_arcaferry_version := version;
     RemoteImport.content_type := ctype;
     RemoteImport.request_json := RemoteImport.Returned body;
     RemoteImport.uuid4 := lit "3f2b8c1e-7a4d-4e7b-9c1a-0d5e6f7a8b9c" |}.

(** Where the card of a successful import comes from: [import_card] on the
    uploaded content, or, without an upload, [model_validate] on the JSON
    body. *)
Definition card_source {Card : Type}
    (import_card : bytes -> RemoteImport.call Card str)
    (model_validate : json -> RemoteImport.call Card Z)
    (request : RemoteImport.ImportRequest) (card : Card) : Prop :=
  (exists content,
      RemoteImport.file request = Some (RemoteImport.UploadRead content) /\
      import_card content = RemoteImport.Returned card) \/
  (RemoteImport.file request = None /\
   exists body,
     RemoteImport.request_json request = RemoteImport.Returned body /\
     model_validate body = RemoteImport.Returned card).

(** ** [urllib.parse.urlparse], step by step *)

Section UrlparseSteps.
Context {rt : PyRuntime}.

(** The address as [urlsplit] reads it: leading C0 controls and spaces
    dropped, tabs and line breaks removed. *)
Definition url_text (url : str) : str :=
  filter (fun c => negb (is_unsafe_url_char c)) (lstrip_by is_c0_or_space url).

(** The scheme split of [urlsplit], and the remainder of the address. *)
Definition split_scheme (url : str) : str * str :=
  let (pre, post) := span_until (is_cp colon) url in
  match pre, post with
  | c0 :: _, _ :: after =>
    if is_ascii_alpha c0 && forallb is_scheme_char pre
    then (str_lower pre, after)
    else ([], url)
  | _, _ => ([], url)
  end.

(** What [urlsplit] does with the text after [//]. *)
Definition parse_authority (scheme tail : str) : result ParseResult :=
  let (netloc, url) := span_until is_netloc_delim tail in
  let open_br := contains lbracket netloc in
  let close_br := contains rbracket netloc in
  if open_br && negb close_br || close_br && negb open_br
  then Raise (ValueError (lit "Invalid IPv6 URL"))
  else
    match (if open_br && close_br
           then check_bracketed_host
                  (fst (fst (partition rbracket
                               (snd (partition lbracket netloc)))))
           else None) with
    | Some msg => Raise (ValueError msg)
    | None =>
      match _checknetloc netloc with
      | Raise e => Raise e
      | Ok _ => Ok {| scheme := scheme; netloc := netloc; rest := url |}
      end
    end.

(** [urlparse] as the composition of these steps; [urlparse_in_steps]
    below shows that it is the same function. *)
Definition urlparse_steps (url : str) : result ParseResult :=
  let (scheme, url) := split_scheme (url_text url) in
  match url with
  | a :: b :: tail =>
    if (a =? slash)%N && (b =? slash)%N
    then parse_authority scheme tail
    else Ok {| scheme := scheme; netloc := []; rest := url |}
  | _ => Ok {| scheme := scheme; netloc := []; rest := url |}
  end.

(** Two parses that found the same scheme and authority, or failed with
    the same exception. *)
Definition same_authority (r r' : result ParseResult) : Prop :=
  match r, r' with
  | Ok p, Ok p' => scheme p = scheme p' /\ netloc p = netloc p'
  | Raise e, Raise e' => e = e'
  | _, _ => False
  end.

End UrlparseSteps.

(** A run of [/]. *)
Definition slashes (sl : str) : Prop := forallb (N.eqb slash) sl = true.

(** * Properties *)

Example lit_ascii : lit "a/b" = [97; 47; 98]%N.
Proof. reflexivity. Qed.
Example lit_cjk : lit "空" = [31354]%N.
Proof. reflexivity. Qed.
Example str_of_int_401 : str_of_int 401 = lit "401".
Proof. reflexivity. Qed.
Example strip_ex : strip (lit "  a b  ") = lit "a b".
Proof. reflexivity. Qed.
Example encode_cjk : option_map (@List.length _) (utf8_encode (lit "空")) = Some 3%nat.
Proof. reflexivity. Qed.

(** ** Stripping *)

Lemma lstrip_by_all p s : forallb p s = true -> lstrip_by p s = [].
Proof.
  induction s as [|c r IH]; simpl; [reflexivity|].
  intros H. apply andb_true_iff in H as [Hc Hr]. rewrite Hc. auto.
Qed.

Lemma lstrip_by_nil_all p s : lstrip_by p s = [] -> forallb p s = true.
Proof.
  induction s as [|c r IH]; simpl; [reflexivity|].
  destruct (p c); simpl; [assumption | discriminate].
Qed.

Lemma lstrip_by_suffix p s :
  exists pre, s = pre ++ lstrip_by p s /\ forallb p pre = true.
Proof.
  induction s as [|c r [pre [E A]]]; simpl.
  - exists []. split; reflexivity.
  - destruct (p c) eqn:Hc.
    + exists (c :: pre). simpl. rewrite Hc, A. split; [f_equal; exact E | reflexivity].
    + exists []. split; reflexivity.
Qed.

Lemma forallb_rev {A} (p : A -> bool) l : forallb p (rev l) = forallb p l.
Proof.
  induction l as [|a l IH]; simpl; [reflexivity|].
  rewrite forallb_app, IH. simpl. rewrite andb_true_r. apply andb_comm.
Qed.

(** [s.strip()] is empty exactly when [s] holds nothing but whitespace. *)
Lemma strip_empty_iff s : strip s = [] <-> forallb isspace s = true.
Proof.
  unfold strip, rstrip_by. split.
  - intros H.
    assert (H1 : lstrip_by isspace (rev (lstrip_by isspace s)) = []).
    { rewrite <- (rev_involutive (lstrip_by isspace (rev _))), H. reflexivity. }
    apply lstrip_by_nil_all in H1. rewrite forallb_rev in H1.
    destruct (lstrip_by_suffix isspace s) as [pre [E A]].
    rewrite E, forallb_app, A, H1. reflexivity.
  - intros H. rewrite (lstrip_by_all _ _ H). reflexivity.
Qed.

(** The guard [not s or not s.strip()]. *)
Lemma blank_guard s :
  negb (nonempty s) || negb (nonempty (strip s)) = forallb isspace s.
Proof.
  destruct (forallb isspace s) eqn:H.
  - apply strip_empty_iff in H. rewrite H. simpl. apply orb_true_r.
  - destruct s as [|c r]; [discriminate|]. simpl.
    destruct (strip (c :: r)) eqn:E; [|reflexivity].
    apply strip_empty_iff in E. congruence.
Qed.

(** [rstrip] leaves a prefix and removes only matching code points. *)
Lemma rstrip_by_prefix p s :
  exists suf, s = rstrip_by p s ++ suf /\ forallb p suf = true.
Proof.
  unfold rstrip_by.
  destruct (lstrip_by_suffix p (rev s)) as [pre [E A]].
  exists (rev pre). split.
  - rewrite <- rev_app_distr, <- E, rev_involutive. reflexivity.
  - rewrite forallb_rev. exact A.
Qed.

Lemma lstrip_by_head p s c r : lstrip_by p s = c :: r -> p c = false.
Proof.
  induction s as [|a l IH]; simpl; [discriminate|].
  destruct (p a) eqn:Ha; [exact IH|].
  intros H. injection H as -> _. exact Ha.
Qed.

(** What [rstrip] returns does not end in a code point it strips. *)
Lemma rstrip_by_last p s l c : rstrip_by p s = l ++ [c] -> p c = false.
Proof.
  unfold rstrip_by. intros H.
  apply (f_equal (@rev _)) in H. rewrite rev_involutive, rev_app_distr in H.
  simpl in H. exact (lstrip_by_head _ _ H).
Qed.

(** ** Credential check (C4) *)

(** C4.  A credential that is empty or holds only whitespace makes both
    [proxy_chat] (whatever its [stream] flag) and [fetch_models] raise
    [ValidationError], kind [VALIDATION_ERROR], with no request sent to the
    upstream and nothing yielded. *)
Theorem blank_api_key_rejected
    (rt : PyRuntime) (payload : SupplierChatRequest) (url : str)
    (net : Transport) :
  api_key payload = [] \/ forallb isspace (api_key payload) = true ->
  rejected_before_network (proxy_chat payload net) /\
  rejected_before_network (fetch_models url (api_key payload) net).
Proof.
  intros H.
  assert (B : forallb isspace (api_key payload) = true).
  { destruct H as [-> | H]; [reflexivity | exact H]. }
  unfold proxy_chat, fetch_models. rewrite blank_guard, B.
  split; (split; [reflexivity | split; [reflexivity |]]);
    eexists; (split; [reflexivity | reflexivity]).
Qed.

Lemma blank_api_key_rejected_witness :
  rejected_before_network
    (@proxy_chat ascii_runtime (sample_payload (lit "   ") false) net_timeout) /\
  rejected_before_network
    (@fetch_models ascii_runtime (lit "https://api.example.com/") (lit "   ")
                   net_timeout).
Proof.
  apply (@blank_api_key_rejected ascii_runtime (sample_payload (lit "   ") false)
           (lit "https://api.example.com/") net_timeout).
  right. reflexivity.
Defined.

(** ** Buffered chat: transport failures (C1) *)

(** C1, at the failing inputs.  [_request_chat] has no [try] around
    [client.post]: when the transport times out or cannot connect, the httpx
    exception leaves the function as it is, and no response pair is built. *)
Theorem request_chat_transport_failure_escapes
    (payload : SupplierChatRequest) (url : str) :
  outcome (_request_chat payload url net_timeout) = Raise HttpxTimeoutException /\
  outcome (_request_chat payload url net_refused)
  = Raise (HttpxRequestError (lit "All connection attempts failed")).
Proof. split; reflexivity. Qed.

(** The same through the route. *)
Lemma proxy_chat_timeout_escapes :
  outcome (@proxy_chat ascii_runtime (sample_payload (lit "sk-test") false)
                       net_timeout)
  = Raise HttpxTimeoutException.
Proof. vm_compute. reflexivity. Qed.

(** An error body whose ["error"] member is not an object makes the message
    lookup raise [AttributeError], in the buffered path as well. *)
Lemma request_chat_error_string_escapes :
  exists msg,
    outcome (_request_chat
               (sample_payload (lit "sk-test") false)
               (lit "https://api.example.com")
               (fun _ => Received
                  (response_with_json 500 error_string_body)))
    = Raise (AttributeError msg).
Proof. eexists. vm_compute. reflexivity. Qed.

(** ** Outgoing chat bodies (C8) *)

Lemma str_eqb_eq a b : str_eqb a b = true <-> a = b.
Proof.
  unfold str_eqb. destruct (list_eq_dec N.eq_dec a b); split; congruence.
Qed.

Lemma dict_get_set_same d k v : dict_get (dict_set d k v) k = Some v.
Proof.
  induction d as [|[k' v'] r IH]; simpl.
  - replace (str_eqb k k) with true; [reflexivity|].
    symmetry. apply str_eqb_eq. reflexivity.
  - destruct (str_eqb k' k) eqn:E; simpl; rewrite E; [reflexivity | exact IH].
Qed.

Lemma dict_get_set_other d k v k' :
  k <> k' -> dict_get (dict_set d k v) k' = dict_get d k'.
Proof.
  intros N. induction d as [|[k0 v0] r IH]; simpl.
  - destruct (str_eqb k k') eqn:E; [apply str_eqb_eq in E; contradiction | reflexivity].
  - destruct (str_eqb k0 k) eqn:E; simpl.
    + apply str_eqb_eq in E. subst k0.
      destruct (str_eqb k k') eqn:E'; [apply str_eqb_eq in E'; contradiction | reflexivity].
    + destruct (str_eqb k0 k'); [reflexivity | exact IH].
Qed.

Lemma dict_get_set d k v k' :
  dict_get (dict_set d k v) k' = if str_eqb k k' then Some v else dict_get d k'.
Proof.
  destruct (str_eqb k k') eqn:E.
  - apply str_eqb_eq in E. subst. apply dict_get_set_same.
  - apply dict_get_set_other. intros ->.
    assert (str_eqb k' k' = true) by (apply str_eqb_eq; reflexivity). congruence.
Qed.

Lemma chat_body_for_built payload streaming :
  chat_body_for payload streaming
    (let body :=
       [(lit "model", JStr (model payload));
        (lit "messages", JList (messages payload));
        (lit "stream", JBool streaming)] in
     let body :=
       match temperature payload with
       | Some t => dict_set body (lit "temperature") (JFloat t)
       | None => body
       end in
     let body :=
       match tools payload with
       | Some ts => dict_set body (lit "tools") (JList ts)
       | None => body
       end in
     if negb (is_none (tool_choice payload))
     then dict_set body (lit "tool_choice") (tool_choice payload)
     else body).
Proof.
  unfold chat_body_for, dict_has. cbv zeta.
  assert (Hnull : forall k,
            dict_get [(lit "model", JStr (model payload));
                      (lit "messages", JList (messages payload));
                      (lit "stream", JBool streaming)] k <> Some JNull).
  { intros k. simpl. repeat (destruct (str_eqb _ k)); discriminate. }
  destruct (temperature payload) as [t|], (tools payload) as [ts|],
    (tool_choice payload) as [| | | | | |] eqn:Etc; cbn [is_none negb];
    repeat split; try (vm_compute; congruence); try discriminate;
    try (intros k; repeat rewrite dict_get_set;
         repeat (destruct (str_eqb _ k)); try discriminate; apply Hnull).
Qed.

(** *** Which steps touch the network *)

Create HintDb silent.

Lemma sent_bind {A B} (m : M A) (k : A -> M B) net :
  sent (bind m k net)
  = sent (m net) ++ match outcome (m net) with
                    | Ok a => sent (k a net)
                    | Raise _ => []
                    end.
Proof.
  unfold bind. destruct (outcome (m net)); simpl;
    [reflexivity | symmetry; apply app_nil_r].
Qed.

Lemma silent_ret {A} (a : A) : silent (ret a).
Proof. intros net. reflexivity. Qed.

Lemma silent_raise {A} e : silent (@raise A e).
Proof. intros net. reflexivity. Qed.

Lemma silent_lift {A} (r : result A) : silent (lift r).
Proof. destruct r; intros net; reflexivity. Qed.

Lemma silent_yield c : silent (yield c).
Proof. intros net. reflexivity. Qed.

Lemma silent_bind {A B} (m : M A) (k : A -> M B) :
  silent m -> (forall a, silent (k a)) -> silent (bind m k).
Proof.
  intros Hm Hk net. rewrite sent_bind, Hm.
  destruct (outcome (m net)); simpl; [apply Hk | reflexivity].
Qed.

Lemma silent_aread r : silent (aread r).
Proof. unfold aread. destruct (read_failure r); intros net; reflexivity. Qed.

Lemma silent_for_each cs body :
  (forall c, silent (body c)) -> silent (for_each cs body).
Proof.
  intros H. induction cs as [|c r IH]; simpl.
  - apply silent_ret.
  - apply silent_bind; [apply H | intros _; exact IH].
Qed.

Lemma silent_if {A} (b : bool) (m1 m2 : M A) :
  silent m1 -> silent m2 -> silent (if b then m1 else m2).
Proof. destruct b; auto. Qed.

#[export] Hint Resolve silent_ret silent_raise silent_lift silent_yield
  silent_aread silent_if : silent.

Lemma silent_aiter_bytes r body :
  (forall c, silent (body c)) -> silent (aiter_bytes r body).
Proof.
  intros H. unfold aiter_bytes. apply silent_bind.
  - apply silent_for_each, H.
  - intros _. destruct (read_failure r); auto with silent.
Qed.

(** C8.  Both chat paths send exactly one request, and its JSON body holds
    [model], [messages] and [stream], holds [temperature], [tools] and
    [tool_choice] exactly when the request has that field, and binds no key
    to [null]. *)
Theorem chat_request_bodies
    (payload : SupplierChatRequest) (url : str) (net : Transport) :
  (exists req body,
      sent (_request_chat payload url net) = [req] /\
      req_json req = Some body /\ chat_body_for payload false body) /\
  (exists req body,
      sent (_stream_chat payload url net) = [req] /\
      req_json req = Some body /\ chat_body_for payload true body).
Proof.
  split.
  - unfold _request_chat. cbv zeta.
    eexists. eexists. split; [| split; [| apply chat_body_for_built]].
    + rewrite sent_bind. unfold client_send at 1. cbn [sent].
      match goal with |- [?r] ++ ?t = _ => assert (E : t = []) end.
      { destruct (outcome _) as [resp|]; [|reflexivity].
        apply silent_if.
        - apply silent_bind; [| intros; apply silent_ret].
          apply silent_if; [| apply silent_ret].
          destruct (json_value resp) as [[]|]; auto with silent.
        - apply silent_ret. }
      rewrite E. reflexivity.
    + reflexivity.
  - unfold _stream_chat. cbv zeta. unfold try_except.
    match goal with
    | |- context [outcome (bind (client_stream ?r) ?k net)] =>
      set (body := bind (client_stream r) k);
      assert (S1 : sent (body net) = [r])
    end.
    { unfold body. rewrite sent_bind. unfold client_stream at 1. cbn [sent].
      match goal with |- [?r] ++ ?t = _ => assert (E : t = []) end.
      { destruct (outcome _) as [resp|]; [|reflexivity].
        apply silent_if.
        - apply silent_bind; [apply silent_aread | intros raw].
          apply silent_bind.
          + apply silent_if; [| apply silent_ret].
            destruct (json_value resp) as [[]|]; auto with silent.
          + intros m. apply silent_bind; auto with silent.
        - apply silent_aiter_bytes. intros c. auto with silent. }
      rewrite E. reflexivity. }
    eexists. eexists. split; [| split; [| apply chat_body_for_built]].
    + destruct (outcome (body net)) as [|e]; [exact S1|].
      destruct (is_httpx_timeout e); [| destruct (is_httpx_request_error e)];
        cbn [sent]; rewrite ?S1; try reflexivity.
      all: match goal with
           | |- context [lift ?r] => destruct r; reflexivity
           end.
    + reflexivity.
Qed.

(** ** Streaming: the relay loop (C10) *)

Lemma timeout_event_ok :
  _format_error_event (lit "TIMEOUT") (JStr (lit "Request timed out"))
  = Ok timeout_event.
Proof. vm_compute. reflexivity. Qed.

Lemma network_error_event_ok :
  _format_error_event (lit "NETWORK_ERROR") (JStr (lit "Network request failed"))
  = Ok network_error_event.
Proof. vm_compute. reflexivity. Qed.

Lemma for_each_relay cs net :
  for_each cs relay net
  = {| sent := []; emitted := filter nonempty cs; outcome := Ok tt |}.
Proof.
  induction cs as [|c r IH]; [reflexivity|].
  cbn [for_each]. unfold bind. rewrite IH. unfold relay at 1.
  destruct c; reflexivity.
Qed.

Lemma concat_filter_nonempty {A} (cs : list (list A)) :
  List.concat (filter nonempty cs) = List.concat cs.
Proof.
  induction cs as [|c r IH]; [reflexivity|].
  destruct c; simpl; [exact IH | rewrite IH; reflexivity].
Qed.

Lemma Forall_filter_nonempty {A} (cs : list (list A)) :
  Forall (fun c => c <> []) (filter nonempty cs).
Proof.
  induction cs as [|c r IH]; simpl; [constructor|].
  destruct c; simpl; [exact IH | constructor; [discriminate | exact IH]].
Qed.

Arguments lit s : simpl never.
Arguments str_of_int z : simpl never.
Arguments _format_error_event code message : simpl never.
Arguments json_dumps v : simpl never.

Lemma bind_client_stream {B} req (k : HttpResponse -> M B) net r :
  net req = Received r ->
  bind (client_stream req) k net
  = {| sent := req :: sent (k r net);
       emitted := emitted (k r net);
       outcome := outcome (k r net) |}.
Proof. intros H. unfold bind, client_stream. cbn. rewrite H. reflexivity. Qed.

Lemma bind_client_stream_failed {B} req (k : HttpResponse -> M B) net e :
  net req = Failed e ->
  bind (client_stream req) k net
  = {| sent := [req]; emitted := []; outcome := Raise e |}.
Proof. intros H. unfold bind, client_stream. cbn. rewrite H. reflexivity. Qed.

Lemma aiter_bytes_relay r net :
  aiter_bytes r relay net
  = {| sent := [];
       emitted := filter nonempty (chunks r);
       outcome := match read_failure r with
                  | Some e => Raise e
                  | None => Ok tt
                  end |}.
Proof.
  unfold aiter_bytes, bind. rewrite for_each_relay. cbn.
  destruct (read_failure r); cbn; rewrite app_nil_r; reflexivity.
Qed.

(** The whole run of the generator on a response below 400. *)
Lemma stream_chat_success_run payload url net r :
  (forall req, net req = Received r) ->
  status_code r < 400 ->
  let t := _stream_chat payload url net in
  emitted t
  = filter nonempty (chunks r)
    ++ match read_failure r with
       | Some HttpxTimeoutException => [timeout_event]
       | Some (HttpxRequestError _) => [network_error_event]
       | _ => []
       end
  /\ outcome t = match read_failure r with
                 | Some HttpxTimeoutException | Some (HttpxRequestError _)
                 | None => Ok tt
                 | Some e => Raise e
                 end.
Proof.
  intros Hnet Hs. unfold _stream_chat. cbv zeta. unfold try_except.
  rewrite (bind_client_stream _ _ _ (Hnet _)). cbn [sent emitted outcome].
  assert (E : (status_code r >=? 400) = false) by lia. rewrite E.
  fold relay. rewrite aiter_bytes_relay. cbn [sent emitted outcome].
  rewrite timeout_event_ok, network_error_event_ok.
  destruct (read_failure r) as [[]|]; cbn; rewrite ?app_nil_r; auto.
Qed.

(** C10.  On a response below 400 the generator yields the upstream chunks
    with the empty ones dropped, in order, so that the relayed bytes
    concatenate to the bytes received; nothing it yields is empty; and when
    the body ends without a transport failure nothing else is yielded. *)
Theorem stream_chat_relays_nonempty_chunks
    (payload : SupplierChatRequest) (url : str) (net : Transport)
    (r : HttpResponse) :
  (forall req, net req = Received r) ->
  status_code r < 400 ->
  let t := _stream_chat payload url net in
  exists relayed tail,
    emitted t = relayed ++ tail /\
    relayed = filter nonempty (chunks r) /\
    List.concat relayed = List.concat (chunks r) /\
    Forall (fun chunk => chunk <> []) (emitted t) /\
    (read_failure r = None -> tail = [] /\ outcome t = Ok tt).
Proof.
  intros Hnet Hs t.
  destruct (stream_chat_success_run payload url net Hnet Hs) as [He Ho].
  fold t in He, Ho.
  eexists. eexists. split; [exact He|]. split; [reflexivity|].
  split; [apply concat_filter_nonempty|]. split.
  - rewrite He. apply Forall_app. split; [apply Forall_filter_nonempty|].
    destruct (read_failure r) as [[]|]; repeat constructor; discriminate.
  - intros Hr. rewrite Hr in Ho. rewrite Hr. split; [reflexivity | exact Ho].
Qed.

Lemma stream_chat_relays_nonempty_chunks_witness :
  emitted (_stream_chat (sample_payload (lit "sk-test") true)
                        (lit "https://api.example.com")
                        (fun _ => Received sample_stream_response))
  = [[x64; x61; x74; x61]; [x3a; x20; x7b; x7d; x0a; x0a]].
Proof.
  destruct (@stream_chat_relays_nonempty_chunks
              (sample_payload (lit "sk-test") true)
              (lit "https://api.example.com")
              (fun _ => Received sample_stream_response)
              sample_stream_response
              (fun _ => eq_refl) ltac:(reflexivity))
    as [relayed [tail [He [Hr [_ [_ Ht]]]]]].
  destruct (Ht eq_refl) as [Ht' _].
  rewrite He, Hr, Ht'. reflexivity.
Defined.

(** ** UTF-8: decoding undoes encoding *)

Lemma to_N_byte_of_N n : (n < 256)%N -> Byte.to_N (byte_of_N n) = n.
Proof.
  intros H. unfold byte_of_N.
  destruct (Byte.of_N n) as [b|] eqn:E.
  - apply Byte.to_of_N. exact E.
  - apply Byte.of_N_None_iff in E. lia.
Qed.

#[local] Ltac Zify.zify_post_hook ::= Z.to_euclidean_division_equations.

Ltac ncase :=
  repeat match goal with
         | |- context [(?a <? ?b)%N] => destruct (N.ltb_spec a b); try lia
         | |- context [(?a <=? ?b)%N] => destruct (N.leb_spec a b); try lia
         end.

Local Opaque N.add N.mul N.div N.modulo N.sub N.ltb N.leb.

Ltac unbyte :=
  repeat match goal with
         | |- context [to_N (byte_of_N ?n)] =>
           rewrite (@to_N_byte_of_N n) by lia
         end.

Lemma split_4096 (c : N) : (c / 4096 = c / 64 / 64)%N.
Proof. rewrite N.Div0.div_div. reflexivity. Qed.

Lemma split_262144 (c : N) : (c / 262144 = c / 64 / 64 / 64)%N.
Proof. rewrite !N.Div0.div_div. reflexivity. Qed.

(** Decoding what [utf8_encode_cp] produced gives the code point back. *)
Lemma decode_encode_cp (c : N) bs r :
  utf8_encode_cp c = Some bs ->
  utf8_decode (bs ++ r) = option_map (cons c) (utf8_decode r).
Proof.
  unfold utf8_encode_cp, is_surrogate.
  pose proof (split_4096 c) as D1. pose proof (split_262144 c) as D2.
  destruct (N.ltb_spec c 128).
  { intros H'; injection H' as <-. cbn [app utf8_decode].
    unbyte. ncase. reflexivity. }
  destruct (N.ltb_spec c 2048).
  { intros H'; injection H' as <-. cbn [app utf8_decode]. unfold cont.
    cbv zeta. unbyte. ncase. cbn [andb].
    f_equal. f_equal. lia. }
  destruct (N.ltb_spec c 65536).
  { destruct (N.leb_spec 55296 c), (N.ltb_spec c 57344); cbn [andb];
      try discriminate;
      (intros H'; injection H' as <-; cbn [app utf8_decode]; unfold cont;
       cbv zeta; unbyte; ncase; cbn [andb];
       match goal with
       | |- context [option_map (cons ?e)] => replace e with c by lia
       end;
       ncase; reflexivity). }
  destruct (N.leb_spec c 1114111); [|discriminate].
  intros H'; injection H' as <-. cbn [app utf8_decode]. unfold cont.
  cbv zeta. unbyte. ncase. cbn [andb].
  match goal with
  | |- context [option_map (cons ?e)] => replace e with c by lia
  end.
  ncase. reflexivity.
Qed.

Local Transparent N.add N.mul N.div N.modulo N.sub N.ltb N.leb.

(** What [str.encode] produces decodes to the text it came from. *)
Lemma decode_encode s bs : utf8_encode s = Some bs -> utf8_decode bs = Some s.
Proof.
  revert bs. induction s as [|c r IH]; intros bs; simpl.
  - intros H; injection H as <-. reflexivity.
  - destruct (utf8_encode_cp c) as [b|] eqn:Ec; [|discriminate].
    destruct (utf8_encode r) as [br|]; [|discriminate].
    intros H; injection H as <-.
    rewrite (@decode_encode_cp c b br Ec), (IH _ eq_refl). reflexivity.
Qed.

(** ** The SSE error framer (C9) *)

Lemma utf8_encode_cp_scalar (c : N) :
  is_scalar c = true -> exists b, utf8_encode_cp c = Some b.
Proof.
  unfold is_scalar, utf8_encode_cp. intros H.
  apply andb_true_iff in H as [H1 H2]. apply negb_true_iff in H1.
  rewrite H1, H2.
  destruct (c <? 128)%N; [eexists; reflexivity|].
  destruct (c <? 2048)%N; [eexists; reflexivity|].
  destruct (c <? 65536)%N; eexists; reflexivity.
Qed.

Lemma utf8_encode_well_formed s :
  well_formed s -> exists bs, utf8_encode s = Some bs.
Proof.
  unfold well_formed. induction s as [|c r IH]; simpl.
  - eexists; reflexivity.
  - intros H. apply andb_true_iff in H as [Hc Hr].
    destruct (utf8_encode_cp_scalar c Hc) as [b ->].
    destruct (IH Hr) as [bs ->]. eexists; reflexivity.
Qed.

Lemma json_escape_cp_scalar (c : N) :
  is_scalar c = true -> forallb is_scalar (json_escape_cp c) = true.
Proof.
  intros H. unfold json_escape_cp.
  repeat match goal with
         | |- context [if ?b then _ else _] =>
           destruct b eqn:?; [try reflexivity|]
         end.
  - rewrite forallb_app. apply andb_true_iff. split; [reflexivity|].
    match goal with H : (c <? 32)%N = true |- _ => apply N.ltb_lt in H end.
    assert (c / 16 < 2)%N by lia. assert (c mod 16 < 16)%N by lia.
    cbn [forallb]. unfold hex_digit, is_scalar, is_surrogate.
    ncase; reflexivity.
  - cbn [forallb]. rewrite H. reflexivity.
Qed.

Lemma json_escape_well_formed s :
  well_formed s -> well_formed (flat_map json_escape_cp s).
Proof.
  unfold well_formed. induction s as [|c r IH]; simpl; [reflexivity|].
  intros H. apply andb_true_iff in H as [Hc Hr].
  rewrite forallb_app, (json_escape_cp_scalar c Hc), (IH Hr). reflexivity.
Qed.

Lemma well_formed_app a b : well_formed a -> well_formed b -> well_formed (a ++ b).
Proof. unfold well_formed. intros Ha Hb. rewrite forallb_app, Ha, Hb. reflexivity. Qed.

Lemma sse_error_text_well_formed kind message :
  well_formed kind -> well_formed message ->
  well_formed (sse_error_text kind message).
Proof.
  intros Hk Hm. unfold sse_error_text.
  repeat (apply well_formed_app;
          [first [reflexivity | apply json_escape_well_formed; assumption] |]).
  reflexivity.
Qed.

(** The text [_format_error_event] hands to [encode], for string
    arguments. *)
Lemma format_error_event_text code message :
  _format_error_event code (JStr message)
  = match utf8_encode (sse_error_text code message) with
    | Some b => Ok b
    | None => Raise UnicodeEncodeError
    end.
Proof.
  unfold _format_error_event, sse_error_text, json_dumps, json_string.
  cbn [map join fst snd].
  repeat rewrite <- app_assoc. reflexivity.
Qed.

(** C9, as the code has it.  For every kind and message that are Unicode
    text (no surrogate code point), [_format_error_event] returns the bytes
    that are the UTF-8 encoding of: [event: error], a line feed, [data: ],
    the object with the kind under ["code"] and the JSON-escaped message
    under ["message"], and two line feeds.  Decoding the bytes gives that
    text back. *)
Theorem format_error_event_bytes (kind message : str) :
  well_formed kind -> well_formed message ->
  exists bs,
    _format_error_event kind (JStr message) = Ok bs /\
    utf8_encode (sse_error_text kind message) = Some bs /\
    utf8_decode bs = Some (sse_error_text kind message).
Proof.
  intros Hk Hm.
  destruct (utf8_encode_well_formed (sse_error_text_well_formed Hk Hm))
    as [bs E].
  exists bs. rewrite format_error_event_text, E.
  split; [reflexivity|]. split; [reflexivity|]. exact (decode_encode _ E).
Qed.

Lemma format_error_event_bytes_witness :
  exists bs,
    _format_error_event (lit "TIMEOUT") (JStr (lit "Request timed out")) = Ok bs /\
    utf8_encode (sse_error_text (lit "TIMEOUT") (lit "Request timed out"))
    = Some bs /\
    utf8_decode bs
    = Some (sse_error_text (lit "TIMEOUT") (lit "Request timed out")).
Proof.
  apply (@format_error_event_bytes (lit "TIMEOUT") (lit "Request timed out"));
    reflexivity.
Defined.

(** C9 as stated fails on a message that is not Unicode text: a lone
    surrogate has no UTF-8 form and [encode] raises. *)
Lemma format_error_event_surrogate_counterexample :
  _format_error_event (lit "UPSTREAM_ERROR") (JStr lone_surrogate)
  = Raise UnicodeEncodeError.
Proof. vm_compute. reflexivity. Qed.

(** ** Error translation on the two chat paths (C2, C6) *)

Lemma bind_client_send {B} req (k : HttpResponse -> M B) net r :
  net req = Received r -> read_failure r = None ->
  bind (client_send req) k net
  = {| sent := req :: sent (k r net);
       emitted := emitted (k r net);
       outcome := outcome (k r net) |}.
Proof.
  intros H F. unfold bind, client_send. cbn. rewrite H, F. reflexivity.
Qed.

Lemma bind_ret_l {A B} (a : A) (k : A -> M B) net :
  bind (ret a) k net = k a net.
Proof. unfold bind, ret. cbn. destruct (k a net); reflexivity. Qed.

(** The run of the generator on a response of status 400 or above whose
    body was read without a transport failure: the message lookup either
    raises, or one event is framed with [_map_error_code] of the status. *)
Lemma stream_chat_error_run payload url net r :
  (forall req, net req = Received r) ->
  400 <= status_code r ->
  read_failure r = None ->
  let t := _stream_chat payload url net in
  (exists e, emitted t = [] /\ outcome t = Raise e) \/
  (exists message ev,
      _format_error_event (_map_error_code (status_code r)) message = Ok ev /\
      emitted t = [ev] /\ outcome t = Ok tt).
Proof.
  intros Hnet Hs Hr. unfold _stream_chat. cbv zeta. unfold try_except.
  rewrite (bind_client_stream _ _ _ (Hnet _)). cbn [sent emitted outcome].
  assert (E : (status_code r >=? 400) = true) by lia. rewrite E.
  unfold aread. rewrite Hr. rewrite bind_ret_l.
  set (default := JStr _).
  set (code := _map_error_code _).
  match goal with
  | |- context [message <- ?m ;; _] => set (lookup := m)
  end.
  assert (L : (exists e, lookup = raise (AttributeError e))
              \/ exists m, lookup = ret m).
  { unfold lookup. destruct (nonempty _); [| right; eexists; reflexivity].
    destruct (json_value r) as [[| | | | | |d]|];
      try (right; eexists; reflexivity).
    - unfold upstream_message.
      destruct (dict_get_default d _ _);
        try (left; eexists; reflexivity); right; eexists; reflexivity.
    - destruct (nonempty _); right; eexists; reflexivity. }
  destruct L as [[e ->] | [m ->]].
  - left. eexists. cbn. split; reflexivity.
  - destruct (_format_error_event code m) as [ev|e] eqn:F.
    + right. exists m, ev. unfold bind, ret, lift, yield. cbn. rewrite F. cbn.
      repeat split; reflexivity.
    + left. exists e. unfold bind, ret, lift, yield. cbn. rewrite F. cbn.
      unfold _format_error_event in F.
      destruct (utf8_encode _); [discriminate|]. injection F as <-.
      cbn. split; reflexivity.
Qed.

(** The same for the buffered call. *)
Lemma request_chat_error_run payload url net r :
  (forall req, net req = Received r) ->
  400 <= status_code r ->
  read_failure r = None ->
  let t := _request_chat payload url net in
  (exists e, outcome t = Raise e) \/
  (exists message,
      outcome t
      = Ok (JSONResponse (status_code r)
              (JDict [(lit "error",
                       JDict [(lit "message", message);
                              (lit "code",
                               JStr (_map_error_code (status_code r)))])]))).
Proof.
  intros Hnet Hs Hr. unfold _request_chat. cbv zeta.
  rewrite (bind_client_send _ _ _ (Hnet _) Hr). cbn [sent emitted outcome].
  assert (E : (status_code r >=? 400) = true) by lia. rewrite E.
  set (default := JStr _).
  match goal with
  | |- context [message <- ?m ;; _] => set (lookup := m)
  end.
  assert (L : (exists e, lookup = raise (AttributeError e))
              \/ exists m, lookup = ret m).
  { unfold lookup. destruct (nonempty _); [| right; eexists; reflexivity].
    destruct (json_value r) as [[| | | | | |d]|];
      try (right; eexists; reflexivity).
    - unfold upstream_message.
      destruct (dict_get_default d _ _);
        try (left; eexists; reflexivity); right; eexists; reflexivity.
    - destruct (nonempty _); right; eexists; reflexivity. }
  destruct L as [[e ->] | [m ->]].
  - left. eexists. reflexivity.
  - right. exists m. reflexivity.
Qed.

Lemma map_error_code_cases s :
  (s = 401 -> _map_error_code s = lit "UNAUTHORIZED") /\
  (s = 429 -> _map_error_code s = lit "RATE_LIMITED") /\
  (s = 400 -> _map_error_code s = lit "VALIDATION_ERROR") /\
  (s <> 400 -> s <> 401 -> s <> 429 -> _map_error_code s = lit "UPSTREAM_ERROR").
Proof.
  unfold _map_error_code. repeat split; intros.
  - subst. reflexivity.
  - subst. reflexivity.
  - subst. reflexivity.
  - destruct (Z.eqb_spec s 401); [contradiction|].
    destruct (Z.eqb_spec s 429); [contradiction|].
    destruct (Z.eqb_spec s 400); [contradiction|]. reflexivity.
Qed.

Lemma chat_paths_share_kind payload url net r :
  (forall req, net req = Received r) ->
  400 <= status_code r ->
  read_failure r = None ->
  stream_emits_kind (_stream_chat payload url net)
                    (_map_error_code (status_code r)) /\
  buffered_returns_kind (_request_chat payload url net) (status_code r)
                        (_map_error_code (status_code r)).
Proof.
  intros Hnet Hs Hr. split.
  - destruct (stream_chat_error_run payload url net Hnet Hs Hr)
      as [[e [He _]] | [m [ev [F [He _]]]]]; unfold stream_emits_kind;
      rewrite He; cbn [List.length In].
    + split; [lia | contradiction].
    + split; [lia|]. intros ev' [<- | []]. exists m. exact F.
  - destruct (request_chat_error_run payload url net Hnet Hs Hr)
      as [[e He] | [m He]]; intros resp; rewrite He; [discriminate|].
    intros H. injection H as <-. exists m. reflexivity.
Qed.

(** C2, as the code has it.  Both chat paths translate the upstream status
    with the same [_map_error_code]: on the streaming path, as on the
    buffered one, 401 gives [UNAUTHORIZED], 429 [RATE_LIMITED], 400
    [VALIDATION_ERROR] and every other status from 400 up
    [UPSTREAM_ERROR]. *)
Theorem chat_error_kinds
    (payload : SupplierChatRequest) (url : str) (net : Transport)
    (r : HttpResponse) :
  (forall req, net req = Received r) ->
  400 <= status_code r ->
  read_failure r = None ->
  let s := status_code r in
  let both kind :=
    stream_emits_kind (_stream_chat payload url net) kind /\
    buffered_returns_kind (_request_chat payload url net) s kind in
  (s = 401 -> both (lit "UNAUTHORIZED")) /\
  (s = 429 -> both (lit "RATE_LIMITED")) /\
  (s = 400 -> both (lit "VALIDATION_ERROR")) /\
  (s <> 400 -> s <> 401 -> s <> 429 -> both (lit "UPSTREAM_ERROR")).
Proof.
  intros Hnet Hs Hr s both.
  pose proof (chat_paths_share_kind payload url net Hnet Hs Hr) as H.
  destruct (map_error_code_cases s) as [C1 [C2 [C3 C4]]]. fold s in H.
  subst both. cbv beta.
  split; [|split; [|split]]; intros.
  - rewrite <- C1 by assumption. exact H.
  - rewrite <- C2 by assumption. exact H.
  - rewrite <- C3 by assumption. exact H.
  - rewrite <- C4 by assumption. exact H.
Qed.

Lemma chat_error_kinds_witness :
  stream_emits_kind
    (_stream_chat (sample_payload (lit "sk-test") true)
                  (lit "https://api.example.com")
                  (fun _ => Received (empty_error_response 400)))
    (lit "VALIDATION_ERROR").
Proof.
  apply (@chat_error_kinds (sample_payload (lit "sk-test") true)
           (lit "https://api.example.com")
           (fun _ => Received (empty_error_response 400))
           (empty_error_response 400));
    [reflexivity | discriminate | reflexivity | reflexivity].
Defined.

Lemma utf8_encode_app a b :
  utf8_encode (a ++ b)
  = match utf8_encode a, utf8_encode b with
    | Some x, Some y => Some (x ++ y)
    | _, _ => None
    end.
Proof.
  induction a as [|c r IH]; simpl.
  - destruct (utf8_encode b); reflexivity.
  - rewrite IH. destruct (utf8_encode_cp c); [|reflexivity].
    destruct (utf8_encode r); [|reflexivity].
    destruct (utf8_encode b); [|reflexivity].
    rewrite app_assoc. reflexivity.
Qed.

Ltac eval_lits :=
  repeat match goal with
         | |- context [lit ?s] =>
           let v := eval vm_compute in (lit s) in change (lit s) with v
         end.

(** Every event of kind [UPSTREAM_ERROR] starts with the same bytes,
    whatever its message. *)
Lemma upstream_error_event_prefix message ev :
  _format_error_event (lit "UPSTREAM_ERROR") message = Ok ev ->
  exists rest,
    ev = match utf8_encode (lit "event: error" ++ nl ++ lit "data: {" ++ dquote
                            ++ lit "code" ++ dquote ++ lit ": " ++ dquote
                            ++ lit "UPSTREAM_ERROR") with
         | Some b => b
         | None => []
         end ++ rest.
Proof.
  unfold _format_error_event.
  change (json_dumps (JDict [(lit "code", JStr (lit "UPSTREAM_ERROR"));
                             (lit "message", message)]))
    with (lit "{" ++ (json_string (lit "code") ++ lit ": "
                      ++ json_string (lit "UPSTREAM_ERROR"))
          ++ lit ", " ++ (json_string (lit "message") ++ lit ": "
                          ++ json_dumps message) ++ lit "}").
  set (tail := json_dumps message).
  match goal with
  | |- context [utf8_encode ?t] =>
    replace t with
      ((lit "event: error" ++ nl ++ lit "data: {" ++ dquote
        ++ lit "code" ++ dquote ++ lit ": " ++ dquote ++ lit "UPSTREAM_ERROR")
       ++ (dquote ++ lit ", " ++ dquote ++ lit "message" ++ dquote ++ lit ": "
           ++ tail ++ lit "}" ++ nl ++ nl))
  end.
  - rewrite utf8_encode_app.
    match goal with
    | |- context [utf8_encode (lit "event: error" ++ ?rest)] =>
      set (p := utf8_encode (lit "event: error" ++ rest))
    end.
    vm_compute in p. subst p. cbv iota beta.
    destruct (utf8_encode _) as [rest|]; [|discriminate].
    intros H. injection H as <-. exists rest. reflexivity.
  - clearbody tail.
    repeat match goal with
           | |- context [json_string (lit ?s)] =>
             let v := eval vm_compute in (json_string (lit s)) in
             change (json_string (lit s)) with v
           end.
    eval_lits. unfold dquote, nl. cbn [app]. rewrite <- ?app_assoc.
    reflexivity.
Qed.

(** C2 as stated fails at status 400: the streaming generator emits the
    event of kind [VALIDATION_ERROR], which no [UPSTREAM_ERROR] event
    equals. *)
Lemma stream_chat_400_counterexample :
  exists ev,
    emitted (_stream_chat (sample_payload (lit "sk-test") true)
                          (lit "https://api.example.com")
                          (fun _ => Received (empty_error_response 400)))
    = [ev] /\
    _format_error_event (lit "VALIDATION_ERROR")
                        (JStr (lit "Upstream error (400)")) = Ok ev /\
    forall message,
      _format_error_event (lit "UPSTREAM_ERROR") message <> Ok ev.
Proof.
  eexists. split; [vm_compute; reflexivity|]. split; [vm_compute; reflexivity|].
  intros message H. apply upstream_error_event_prefix in H.
  destruct H as [rest H]. apply (f_equal (firstn 30)) in H.
  vm_compute in H. discriminate.
Qed.

(** C6, at the failing input.  Upstream answers 500 with the body
    [{"error": "boom"}]; the message lookup calls [.get] on the string,
    [AttributeError] leaves the generator, and no event is yielded. *)
Theorem stream_chat_error_string_raises :
  let t := _stream_chat (sample_payload (lit "sk-test") true)
                        (lit "https://api.example.com")
                        (fun _ => Received
                                    (response_with_json 500 error_string_body)) in
  emitted t = [] /\
  outcome t = Raise (AttributeError (lit "object has no attribute 'get'")).
Proof. vm_compute. split; reflexivity. Qed.

(** Away from that slip the streaming path does what C6 says: with an empty
    error body exactly one event is yielded and the generator ends. *)
Lemma stream_chat_empty_error_body_one_event :
  let t := _stream_chat (sample_payload (lit "sk-test") true)
                        (lit "https://api.example.com")
                        (fun _ => Received (empty_error_response 503)) in
  exists ev,
    _format_error_event (lit "UPSTREAM_ERROR")
                        (JStr (lit "Upstream error (503)")) = Ok ev /\
    emitted t = [ev] /\ outcome t = Ok tt.
Proof. eexists. vm_compute. repeat split; reflexivity. Qed.

(** ** Model listing (C3, C7) *)

Section FetchModels.
Context {rt : PyRuntime}.

Lemma collect_model_spec items acc :
  fold_left collect_model items acc = acc ++ model_entries_spec items.
Proof.
  revert acc. induction items as [|item r IH]; intros acc; simpl.
  - symmetry. apply app_nil_r.
  - rewrite IH. unfold collect_model, dict_get_default.
    destruct item as [| | | | | |d]; try reflexivity.
    destruct (dict_get d (lit "id")) as [v|]; [|reflexivity].
    destruct (truthy v); [|reflexivity].
    rewrite <- app_assoc. reflexivity.
Qed.

Lemma bind_try_send {B} req h (k : HttpResponse -> M B) net r :
  net req = Received r -> read_failure r = None ->
  bind (try_except (client_send req) h) k net
  = {| sent := req :: sent (k r net);
       emitted := emitted (k r net);
       outcome := outcome (k r net) |}.
Proof.
  intros H F. unfold bind, try_except, client_send. cbn. rewrite H, F.
  reflexivity.
Qed.

(** Once the credential and the URL are accepted and the upstream has
    answered, [fetch_models] is decided by the response alone. *)
Lemma fetch_models_run base_url key net normalized r :
  forallb isspace key = false ->
  _normalize_base_url base_url = Ok normalized ->
  (forall req, net req = Received r) ->
  read_failure r = None ->
  outcome (fetch_models base_url key net)
  = if status_code r =? 401
    then Raise (UnauthorizedError (lit "Unauthorized"))
    else if status_code r =? 429
    then Raise (RateLimitedError (lit "Rate limit exceeded"))
    else if status_code r >=? 400
    then Raise (NetworkError
                  (lit "Upstream error: " ++ str_of_int (status_code r))
                  (Some (JDict [(lit "status_code", JInt (status_code r))])))
    else
      match json_value r with
      | None =>
        Raise (ValidationError
                 (lit "响应解析失败")
                 (Some (JDict [(lit "error", JStr (json_error r))])))
      | Some (JDict d) =>
        match dict_get d (lit "data") with
        | Some (JList items) => Ok (model_entries_spec items)
        | _ => Ok []
        end
      | Some _ => Ok []
      end.
Proof.
  intros Hk Hn Hnet Hr. unfold fetch_models.
  rewrite blank_guard, Hk, Hn. cbn [lift]. rewrite bind_ret_l.
  rewrite (bind_try_send _ _ _ _ (Hnet _) Hr). cbn [outcome].
  destruct (status_code r =? 401); [reflexivity|].
  destruct (status_code r =? 429); [reflexivity|].
  destruct (status_code r >=? 400); [reflexivity|].
  destruct (json_value r) as [[| | | | | |d]|]; try reflexivity.
  unfold dict_get_default.
  destruct (dict_get d (lit "data")) as [[| | | | |items|]|]; try reflexivity.
  cbn [ret outcome]. rewrite collect_model_spec. reflexivity.
Qed.

End FetchModels.

(** C3, as the code has it.  On an upstream status of 400 or above other
    than 401 and 429, [fetch_models] raises [NetworkError] -- the class, and
    the kind [NETWORK_ERROR], of a transport failure -- with the message
    [Upstream error: <status>] and the numeric status in its details; 401
    raises [UnauthorizedError] and 429 [RateLimitedError]. *)
Theorem fetch_models_status_errors
    (rt : PyRuntime) (base_url key normalized : str) (net : Transport)
    (r : HttpResponse) :
  forallb isspace key = false ->
  _normalize_base_url base_url = Ok normalized ->
  (forall req, net req = Received r) ->
  read_failure r = None ->
  let s := status_code r in
  let fails_with e kind :=
    outcome (fetch_models base_url key net) = Raise e /\
    error_kind e = kind in
  (s = 401 ->
   fails_with (UnauthorizedError (lit "Unauthorized")) (lit "UNAUTHORIZED")) /\
  (s = 429 ->
   fails_with (RateLimitedError (lit "Rate limit exceeded"))
              (lit "RATE_LIMITED")) /\
  (400 <= s -> s <> 401 -> s <> 429 ->
   fails_with (NetworkError (lit "Upstream error: " ++ str_of_int s)
                            (Some (JDict [(lit "status_code", JInt s)])))
              (lit "NETWORK_ERROR")).
Proof.
  intros Hk Hn Hnet Hr s fails_with. subst fails_with. cbv beta.
  rewrite (@fetch_models_run rt base_url key net normalized r Hk Hn Hnet Hr). fold s.
  split; [|split]; intros.
  - subst s. rewrite H. split; reflexivity.
  - subst s. rewrite H. split; reflexivity.
  - destruct (Z.eqb_spec s 401); [contradiction|].
    destruct (Z.eqb_spec s 429); [contradiction|].
    replace (s >=? 400) with true by lia. split; reflexivity.
Qed.

Lemma fetch_models_status_errors_witness :
  outcome (@fetch_models ascii_runtime (lit "https://api.example.com/")
             (lit "sk-test") (fun _ => Received (empty_error_response 401)))
  = Raise (UnauthorizedError (lit "Unauthorized")).
Proof.
  apply (@fetch_models_status_errors ascii_runtime
           (lit "https://api.example.com/") (lit "sk-test")
           (lit "https://api.example.com")
           (fun _ => Received (empty_error_response 401))
           (empty_error_response 401));
    reflexivity.
Defined.

(** No member of [ErrorCode] is called [UPSTREAM_ERROR]. *)
Lemma no_upstream_error_code c : ErrorCode_value c <> lit "UPSTREAM_ERROR".
Proof. destruct c; vm_compute; discriminate. Qed.

(** C3 as stated fails at status 500: the error raised has kind
    [NETWORK_ERROR], not [UPSTREAM_ERROR]. *)
Lemma fetch_models_500_counterexample :
  exists e,
    outcome (@fetch_models ascii_runtime (lit "https://api.example.com/")
               (lit "sk-test") (fun _ => Received (empty_error_response 500)))
    = Raise e /\
    error_kind e = lit "NETWORK_ERROR" /\
    error_kind e <> lit "UPSTREAM_ERROR".
Proof.
  eexists. split; [vm_compute; reflexivity|].
  split; [reflexivity | vm_compute; discriminate].
Qed.

(** C7.  On a response below 400 (every 2xx among them): a body that is not
    JSON makes [fetch_models] raise [ValidationError]; a body that is not an
    object with an array under ["data"] gives the empty list; otherwise the
    result is, in order, one entry for each element of ["data"] that is an
    object with a truthy (for a string: non-empty) ["id"], carrying that id
    as text. *)
Theorem fetch_models_success
    (rt : PyRuntime) (base_url key normalized : str) (net : Transport)
    (r : HttpResponse) :
  forallb isspace key = false ->
  _normalize_base_url base_url = Ok normalized ->
  (forall req, net req = Received r) ->
  read_failure r = None ->
  status_code r < 400 ->
  let result := outcome (fetch_models base_url key net) in
  (json_value r = None ->
   exists e, result = Raise e /\
             e = ValidationError
                   (lit "响应解析失败")
                   (Some (JDict [(lit "error", JStr (json_error r))])) /\
             error_kind e = lit "VALIDATION_ERROR") /\
  (forall payload, json_value r = Some payload ->
                   ~ has_data_array payload -> result = Ok []) /\
  (forall d items, json_value r = Some (JDict d) ->
                   dict_get d (lit "data") = Some (JList items) ->
                   result = Ok (model_entries_spec items)).
Proof.
  intros Hk Hn Hnet Hr Hs result. subst result.
  rewrite (@fetch_models_run rt base_url key net normalized r Hk Hn Hnet Hr).
  destruct (Z.eqb_spec (status_code r) 401); [lia|].
  destruct (Z.eqb_spec (status_code r) 429); [lia|].
  replace (status_code r >=? 400) with false by lia.
  split; [|split].
  - intros ->. eexists. repeat split; reflexivity.
  - intros payload -> Hno.
    destruct payload as [| | | | | |d]; try reflexivity.
    destruct (dict_get d (lit "data")) as [[| | | | |items|]|] eqn:E;
      try reflexivity.
    exfalso. apply Hno. exists d, items. split; [reflexivity | exact E].
  - intros d items -> ->. reflexivity.
Qed.

Lemma fetch_models_success_witness :
  outcome (@fetch_models ascii_runtime (lit "https://api.example.com/")
             (lit "sk-test")
             (fun _ => Received (response_with_json 200 sample_models_body)))
  = Ok [{| sm_id := lit "gpt-a" |}].
Proof.
  destruct (@fetch_models_success ascii_runtime
              (lit "https://api.example.com/") (lit "sk-test")
              (lit "https://api.example.com")
              (fun _ => Received (response_with_json 200 sample_models_body))
              (response_with_json 200 sample_models_body)
              eq_refl eq_refl (fun _ => eq_refl) eq_refl eq_refl)
    as [_ [_ H]].
  exact (H _ _ eq_refl eq_refl).
Defined.

(** ** Endpoint normalisation (C5) *)

Section Normalize.
Context {rt : PyRuntime}.

(** C5, at the failing input.  [urlparse] rejects an authority with an
    unbalanced bracket by raising [ValueError]; [_normalize_base_url] has no
    handler for it, so the caller gets neither a [ValidationError] nor a
    normalised URL. *)
Theorem normalize_unbalanced_bracket_raises :
  _normalize_base_url (lit "http://[") = Raise (ValueError (lit "Invalid IPv6 URL")).
Proof. vm_compute. reflexivity. Qed.

(** Whatever the parser raises leaves [_normalize_base_url] unchanged. *)
Lemma normalize_propagates_parser_error base_url e :
  forallb isspace base_url = false ->
  urlparse base_url = Raise e ->
  _normalize_base_url base_url = Raise e.
Proof.
  intros Hb Hp. unfold _normalize_base_url. rewrite blank_guard, Hb, Hp.
  reflexivity.
Qed.

Lemma existsb_str_eqb_In s l : existsb (str_eqb s) l = true <-> In s l.
Proof.
  rewrite existsb_exists. split.
  - intros [x [Hx E]]. apply str_eqb_eq in E. subst. exact Hx.
  - intros H. exists s. split; [exact H | apply str_eqb_eq; reflexivity].
Qed.

Lemma nonempty_false_iff {A} (l : list A) : negb (nonempty l) = true <-> l = [].
Proof. destruct l; simpl; split; congruence. Qed.

(** On every input the parser accepts, C5 holds as written: the call fails
    with [ValidationError] exactly when the input is blank, or the parse has
    no scheme or no network location, or the lower-cased host name is a
    loopback name; otherwise it returns the input without its trailing
    slashes. *)
Lemma normalize_when_parsed base_url parsed :
  urlparse base_url = Ok parsed ->
  let host := match hostname parsed with Some h => h | None => [] end in
  let rejected :=
    forallb isspace base_url = true \/ scheme parsed = [] \/
    netloc parsed = [] \/ In (str_lower host) loopback_names in
  (rejected ->
   exists message,
     _normalize_base_url base_url = Raise (ValidationError message None) /\
     error_kind (ValidationError message None) = lit "VALIDATION_ERROR") /\
  (~ rejected -> _normalize_base_url base_url = Ok (rstrip_slash base_url)).
Proof.
  intros Hp host rejected. unfold _normalize_base_url.
  rewrite blank_guard, Hp. fold host.
  destruct (forallb isspace base_url) eqn:Hb.
  { split; [intros _; eexists; split; reflexivity |].
    intros N. exfalso. apply N. left. reflexivity. }
  destruct (negb (nonempty (scheme parsed)) || negb (nonempty (netloc parsed)))
    eqn:Hsn.
  { split; [intros _; eexists; split; reflexivity |].
    intros N. exfalso. apply N. right.
    apply orb_true_iff in Hsn as [H | H]; apply nonempty_false_iff in H; auto. }
  destruct (existsb (str_eqb (str_lower host)) loopback_names) eqn:Hl.
  { split; [intros _; eexists; split; reflexivity |].
    intros N. exfalso. apply N. right. right. right.
    apply existsb_str_eqb_In. exact Hl. }
  split; [| reflexivity].
  intros [H | [H | [H | H]]]; exfalso.
  - congruence.
  - apply orb_false_iff in Hsn as [H1 _]. rewrite H in H1. discriminate.
  - apply orb_false_iff in Hsn as [_ H2]. rewrite H in H2. discriminate.
  - apply existsb_str_eqb_In in H. congruence.
Qed.

(** A normalised URL never ends in a slash. *)
Lemma normalize_no_trailing_slash base_url normalized l :
  _normalize_base_url base_url = Ok normalized -> normalized <> l ++ [slash].
Proof.
  unfold _normalize_base_url.
  destruct (_ || _); [discriminate|].
  destruct (urlparse base_url); [|discriminate].
  destruct (_ || _); [discriminate|].
  destruct (existsb _ _); [discriminate|].
  intros H E. injection H as <-.
  apply rstrip_by_last in E. unfold slash in E. rewrite N.eqb_refl in E.
  discriminate.
Qed.

Ltac lower_ascii_lit s :=
  let v := eval vm_compute in (map ascii_lower (lit s)) in
  let w := eval vm_compute in (lit s) in
  let H := fresh "L" in
  assert (H : str_lower w = v) by (apply str_lower_ascii; reflexivity);
  cbv -[str_lower] in H.

(** Evaluate around the runtime's [str_lower], using the recorded facts
    about it where it is applied. *)
Ltac run_normalize :=
  repeat (cbv -[str_lower str_eqb];
          match goal with
          | L : str_lower ?w = _ |- context [str_lower ?w] => rewrite L
          end);
  vm_compute.

(** [normalize("http://x/") == normalize("http://x")] *)
Lemma normalize_trailing_slash_example :
  _normalize_base_url (lit "http://x/") = Ok (lit "http://x") /\
  _normalize_base_url (lit "http://x") = Ok (lit "http://x").
Proof.
  lower_ascii_lit "http"%string. lower_ascii_lit "x"%string.
  split.
  - run_normalize. reflexivity.
  - run_normalize. reflexivity.
Qed.

(** The loopback names are rejected in any letter case, with a port and
    with user information. *)
Lemma normalize_rejects_loopback_example :
  forall u,
    In u [lit "http://localhost"; lit "http://LocalHost:8080/v1";
          lit "https://user:pw@LOCALHOST/"; lit "http://127.0.0.1:11434"] ->
    _normalize_base_url u
    = Raise (ValidationError (lit "API 地址不能为 localhost") None).
Proof.
  lower_ascii_lit "http"%string. lower_ascii_lit "https"%string.
  lower_ascii_lit "localhost"%string. lower_ascii_lit "LocalHost"%string.
  lower_ascii_lit "LOCALHOST"%string. lower_ascii_lit "127.0.0.1"%string.
  intros u [<- | [<- | [<- | [<- | []]]]]; run_normalize; reflexivity.
Qed.


End Normalize.

(** A bracketed loopback address, on a runtime whose bracket check accepts
    it. *)
Lemma normalize_rejects_bracketed_loopback :
  @_normalize_base_url ascii_runtime (lit "http://[::1]:8000/")
  = Raise (ValidationError (lit "API 地址不能为 localhost") None).
Proof. vm_compute. reflexivity. Qed.

(** ** Further facts about the framer and the buffered path *)

(** JSON escaping leaves no raw line break, so the [data:] line of an error
    event is one line and the event ends at its blank line. *)
Lemma json_escape_no_line_break s :
  existsb is_line_break (flat_map json_escape_cp s) = false.
Proof.
  induction s as [|c r IH]; simpl; [reflexivity|].
  rewrite existsb_app, IH, orb_false_r.
  unfold json_escape_cp, is_line_break.
  destruct (N.eqb_spec c 34); [reflexivity|].
  destruct (N.eqb_spec c 92); [reflexivity|].
  destruct (N.eqb_spec c 10); [reflexivity|].
  destruct (N.eqb_spec c 13); [reflexivity|].
  destruct (N.eqb_spec c 9); [reflexivity|].
  destruct (N.eqb_spec c 8); [reflexivity|].
  destruct (N.eqb_spec c 12); [reflexivity|].
  destruct (N.ltb_spec c 32).
  - rewrite existsb_app. apply orb_false_iff. split; [reflexivity|].
    assert (c / 16 < 2)%N by lia. assert (c mod 16 < 16)%N by lia.
    cbn [existsb]. unfold hex_digit.
    repeat match goal with
           | |- context [(?a <? ?b)%N] => destruct (N.ltb_spec a b)
           | |- context [(?a =? ?b)%N] => destruct (N.eqb_spec a b); try lia
           end; reflexivity.
  - cbn [existsb].
    destruct (N.eqb_spec c 10); [contradiction|].
    destruct (N.eqb_spec c 13); [contradiction|]. reflexivity.
Qed.


(** A transport failure before any response, on the streaming path: one
    event of the matching kind, and the generator ends. *)
Lemma stream_chat_transport_failure payload url :
  emitted (_stream_chat payload url net_timeout) = [timeout_event] /\
  outcome (_stream_chat payload url net_timeout) = Ok tt /\
  emitted (_stream_chat payload url net_refused) = [network_error_event] /\
  outcome (_stream_chat payload url net_refused) = Ok tt.
Proof.
  unfold _stream_chat. cbv zeta. unfold try_except.
  rewrite (@bind_client_stream_failed _ _ _ net_timeout HttpxTimeoutException
             eq_refl).
  rewrite (@bind_client_stream_failed _ _ _ net_refused
             (HttpxRequestError (lit "All connection attempts failed")) eq_refl).
  cbn [outcome is_httpx_timeout is_httpx_request_error sent emitted].
  rewrite timeout_event_ok, network_error_event_ok.
  repeat split; reflexivity.
Qed.

(** * Beyond the claims: the proxy paths end to end *)

(** *** Which steps yield *)

Create HintDb quiet.

Lemma emitted_bind {A B} (m : M A) (k : A -> M B) net :
  emitted (bind m k net)
  = emitted (m net) ++ match outcome (m net) with
                       | Ok a => emitted (k a net)
                       | Raise _ => []
                       end.
Proof.
  unfold bind. destruct (outcome (m net)); simpl;
    [reflexivity | symmetry; apply app_nil_r].
Qed.

Lemma quiet_ret {A} (a : A) : quiet (ret a).
Proof. intros net. reflexivity. Qed.

Lemma quiet_raise {A} e : quiet (@raise A e).
Proof. intros net. reflexivity. Qed.

Lemma quiet_lift {A} (r : result A) : quiet (lift r).
Proof. destruct r; intros net; reflexivity. Qed.

Lemma quiet_client_send req : quiet (client_send req).
Proof. intros net. reflexivity. Qed.

Lemma quiet_bind {A B} (m : M A) (k : A -> M B) :
  quiet m -> (forall a, quiet (k a)) -> quiet (bind m k).
Proof.
  intros Hm Hk net. rewrite emitted_bind, Hm.
  destruct (outcome (m net)); simpl; [apply Hk | reflexivity].
Qed.

Lemma quiet_if {A} (b : bool) (m1 m2 : M A) :
  quiet m1 -> quiet m2 -> quiet (if b then m1 else m2).
Proof. destruct b; auto. Qed.

Lemma quiet_try_except {A} (m : M A) h :
  quiet m -> (forall e k, h e = Some k -> quiet k) -> quiet (try_except m h).
Proof.
  intros Hm Hh net. unfold try_except.
  destruct (outcome (m net)) as [|e] eqn:E; [apply Hm|].
  destruct (h e) as [k|] eqn:Hk; [|apply Hm].
  cbn [emitted]. rewrite Hm, (Hh _ _ Hk). reflexivity.
Qed.

Lemma silent_try_except {A} (m : M A) h :
  (forall e k, h e = Some k -> silent k) ->
  forall net, sent (try_except m h net) = sent (m net).
Proof.
  intros Hh net. unfold try_except.
  destruct (outcome (m net)) as [|e] eqn:E; [reflexivity|].
  destruct (h e) as [k|] eqn:Hk; [|reflexivity].
  cbn [sent]. rewrite (Hh _ _ Hk). apply app_nil_r.
Qed.

#[export] Hint Resolve quiet_ret quiet_raise quiet_lift quiet_client_send
  quiet_if : quiet.

(** The buffered call never yields. *)
Lemma request_chat_quiet payload url : quiet (_request_chat payload url).
Proof.
  unfold _request_chat. cbv zeta.
  apply quiet_bind; [apply quiet_client_send | intros resp].
  apply quiet_if; [| apply quiet_ret].
  apply quiet_bind; [| intros; apply quiet_ret].
  apply quiet_if; [| apply quiet_ret].
  destruct (json_value resp) as [[]|]; auto with quiet.
Qed.

(** The one request of the buffered call. *)
Lemma request_chat_sent payload url net :
  exists req,
    sent (_request_chat payload url net) = [req] /\
    req_method req = lit "POST" /\
    req_url req = url ++ lit "/v1/chat/completions" /\
    req_headers req
    = [(lit "Accept", lit "application/json");
       (lit "Content-Type", lit "application/json");
       (lit "Authorization", lit "Bearer " ++ api_key payload)] /\
    req_timeout req = chat_timeout.
Proof.
  unfold _request_chat. cbv zeta.
  match goal with
  | |- context [client_send ?r] => set (req := r)
  end.
  exists req. split; [| repeat split; reflexivity].
  rewrite sent_bind. unfold client_send at 1. cbn [sent].
  match goal with |- [_] ++ ?t = _ => assert (E : t = []) end.
  { destruct (outcome _) as [resp|]; [|reflexivity].
    apply silent_if.
    - apply silent_bind; [| intros; apply silent_ret].
      apply silent_if; [| apply silent_ret].
      destruct (json_value resp) as [[]|]; auto with silent.
    - apply silent_ret. }
  rewrite E. reflexivity.
Qed.

Section ProxyRoutes.
Context {rt : PyRuntime}.

Lemma normalize_ok_rstrip base_url normalized :
  _normalize_base_url base_url = Ok normalized ->
  normalized = rstrip_slash base_url.
Proof.
  unfold _normalize_base_url.
  destruct (_ || _); [discriminate|].
  destruct (urlparse base_url); [|discriminate].
  destruct (_ || _); [discriminate|].
  destruct (existsb _ _); [discriminate|].
  intros H. injection H as <-. reflexivity.
Qed.

(** X1.  When [_normalize_base_url] rejects the base URL, whatever it
    raises, [proxy_chat] and [fetch_models] raise the same exception having
    sent no request and yielded nothing. *)
Theorem rejected_base_url_sends_nothing
    (payload : SupplierChatRequest) (net : Transport) (e : exn) :
  forallb isspace (api_key payload) = false ->
  _normalize_base_url (base_url payload) = Raise e ->
  proxy_chat payload net
  = {| sent := []; emitted := []; outcome := Raise e |} /\
  fetch_models (base_url payload) (api_key payload) net
  = {| sent := []; emitted := []; outcome := Raise e |}.
Proof.
  intros Hk Hn. unfold proxy_chat, fetch_models.
  rewrite blank_guard, Hk, Hn. split; reflexivity.
Qed.

(** X2.  With an accepted key and base URL, the buffered route sends exactly
    one POST, to the base URL without its trailing slashes followed by
    [/v1/chat/completions], carrying the bearer credential and the chat
    timeouts, and yields nothing; the streaming route sends nothing itself
    and hands back the generator with the event-stream headers. *)
Theorem proxy_chat_request_target
    (payload : SupplierChatRequest) (net : Transport) (normalized : str) :
  forallb isspace (api_key payload) = false ->
  _normalize_base_url (base_url payload) = Ok normalized ->
  (stream payload = false ->
   exists req,
     sent (proxy_chat payload net) = [req] /\
     emitted (proxy_chat payload net) = [] /\
     req_method req = lit "POST" /\
     req_url req
     = rstrip_slash (base_url payload) ++ lit "/v1/chat/completions" /\
     req_headers req
     = [(lit "Accept", lit "application/json");
        (lit "Content-Type", lit "application/json");
        (lit "Authorization", lit "Bearer " ++ api_key payload)] /\
     req_timeout req = chat_timeout) /\
  (stream payload = true ->
   proxy_chat payload net
   = {| sent := []; emitted := [];
        outcome :=
          Ok (StreamingResponse
                (_stream_chat payload (rstrip_slash (base_url payload)))
                (lit "text/event-stream")
                [(lit "Cache-Control", lit "no-cache");
                 (lit "Connection", lit "keep-alive")]) |}).
Proof.
  intros Hk Hn. pose proof (normalize_ok_rstrip _ Hn) as ->.
  unfold proxy_chat. rewrite blank_guard, Hk, Hn. cbn [lift].
  rewrite bind_ret_l. split; intros ->.
  - destruct (request_chat_sent payload (rstrip_slash (base_url payload)) net)
      as [req [Hs H]].
    exists req. split; [exact Hs|]. split; [apply request_chat_quiet | exact H].
  - reflexivity.
Qed.

Lemma fetch_models_sent base_url key net normalized :
  forallb isspace key = false ->
  _normalize_base_url base_url = Ok normalized ->
  sent (fetch_models base_url key net)
  = [{| req_method := lit "GET";
        req_url := normalized ++ lit "/v1/models";
        req_headers := [(lit "Accept", lit "application/json");
                        (lit "Authorization", lit "Bearer " ++ key)];
        req_json := None;
        req_timeout := client_timeout_10 |}] /\
  emitted (fetch_models base_url key net) = [].
Proof.
  intros Hk Hn. unfold fetch_models. rewrite blank_guard, Hk, Hn. cbn [lift].
  rewrite bind_ret_l.
  match goal with
  | |- context [bind (try_except ?m ?h) ?k] =>
    set (send := try_except m h); set (cont := k)
  end.
  assert (S1 : sent (send net) = [{| req_method := lit "GET";
        req_url := normalized ++ lit "/v1/models";
        req_headers := [(lit "Accept", lit "application/json");
                        (lit "Authorization", lit "Bearer " ++ key)];
        req_json := None;
        req_timeout := client_timeout_10 |}]).
  { unfold send. rewrite silent_try_except; [reflexivity|].
    intros e k. destruct (is_httpx_timeout e);
      [| destruct (is_httpx_request_error e)]; intros H;
      try discriminate; injection H as <-; apply silent_raise. }
  assert (Q1 : quiet send).
  { unfold send. apply quiet_try_except; [apply quiet_client_send|].
    intros e k. destruct (is_httpx_timeout e);
      [| destruct (is_httpx_request_error e)]; intros H;
      try discriminate; injection H as <-; apply quiet_raise. }
  assert (SK : forall resp, silent (cont resp) /\ quiet (cont resp)).
  { intros resp. unfold cont.
    split.
    - repeat (apply silent_if; [apply silent_raise|]).
      destruct (json_value resp) as [[| | | | | |d]|];
        try apply silent_ret; try apply silent_raise.
      destruct (dict_get_default d _ _); apply silent_ret.
    - repeat (apply quiet_if; [apply quiet_raise|]).
      destruct (json_value resp) as [[| | | | | |d]|];
        try apply quiet_ret; try apply quiet_raise.
      destruct (dict_get_default d _ _); apply quiet_ret. }
  split.
  - rewrite sent_bind, S1. destruct (outcome (send net)); [|reflexivity].
    rewrite (proj1 (SK _)). reflexivity.
  - apply quiet_bind; [exact Q1 | intros; apply SK].
Qed.

(** X3.  With an accepted key and base URL, [fetch_models] sends exactly one
    request whatever the upstream does: a GET without body to the base URL
    without its trailing slashes followed by [/v1/models], asking for JSON,
    carrying the bearer credential, with a 10 second timeout; it yields
    nothing. *)
Theorem fetch_models_request
    (base_url key normalized : str) (net : Transport) :
  forallb isspace key = false ->
  _normalize_base_url base_url = Ok normalized ->
  sent (fetch_models base_url key net)
  = [{| req_method := lit "GET";
        req_url := rstrip_slash base_url ++ lit "/v1/models";
        req_headers := [(lit "Accept", lit "application/json");
                        (lit "Authorization", lit "Bearer " ++ key)];
        req_json := None;
        req_timeout :=
          {| t_connect := 10; t_read := 10; t_write := 10; t_pool := 10 |} |}]
  /\ emitted (fetch_models base_url key net) = [].
Proof.
  intros Hk Hn. pose proof (normalize_ok_rstrip _ Hn) as E. subst normalized.
  exact (@fetch_models_sent base_url key net _ Hk Hn).
Qed.

(** X4.  When the transport fails, [fetch_models] translates: an httpx
    timeout becomes [TimeoutError] (kind [TIMEOUT]), any other httpx request
    error becomes [NetworkError] (kind [NETWORK_ERROR]) whose details hold
    the text of the original error, and an exception of any other class
    leaves the function unchanged. *)
Theorem fetch_models_transport_failure
    (base_url key normalized : str) (net : Transport) (e : exn) :
  forallb isspace key = false ->
  _normalize_base_url base_url = Ok normalized ->
  send_raises net e ->
  let result := outcome (fetch_models base_url key net) in
  (is_httpx_timeout e = true ->
   result = Raise (TimeoutError (lit "Request timed out")) /\
   error_kind (TimeoutError (lit "Request timed out")) = lit "TIMEOUT") /\
  (is_httpx_timeout e = false -> is_httpx_request_error e = true ->
   result = Raise (NetworkError
                     (lit "Network request failed")
                     (Some (JDict [(lit "error", JStr (exn_str e))]))) /\
   error_kind (NetworkError (lit "Network request failed") None)
   = lit "NETWORK_ERROR") /\
  (is_httpx_request_error e = false -> result = Raise e).
Proof.
  intros Hk Hn Hs result. subst result. unfold fetch_models.
  rewrite blank_guard, Hk, Hn. cbn [lift]. rewrite bind_ret_l.
  unfold bind, try_except. rewrite Hs. cbn [outcome].
  split; [|split].
  - intros ->. split; reflexivity.
  - intros -> ->. split; reflexivity.
  - intros H. destruct e; try discriminate H;
      cbn [is_httpx_timeout is_httpx_request_error outcome];
      rewrite Hs; reflexivity.
Qed.

End ProxyRoutes.

Lemma rejected_base_url_sends_nothing_witness :
  sent (@proxy_chat ascii_runtime loopback_payload net_refused) = [] /\
  sent (@fetch_models ascii_runtime (base_url loopback_payload)
                      (api_key loopback_payload) net_refused) = [].
Proof.
  destruct (@rejected_base_url_sends_nothing ascii_runtime loopback_payload
              net_refused
              (ValidationError (lit "API 地址不能为 localhost") None)
              eq_refl eq_refl) as [H1 H2].
  rewrite H1, H2. split; reflexivity.
Defined.

Lemma proxy_chat_request_target_witness :
  exists req,
    sent (@proxy_chat ascii_runtime (sample_payload (lit "sk-test") false)
                      net_refused) = [req] /\
    req_url req = lit "https://api.example.com/v1/chat/completions".
Proof.
  destruct (@proxy_chat_request_target ascii_runtime
              (sample_payload (lit "sk-test") false) net_refused
              (lit "https://api.example.com") eq_refl eq_refl) as [H _].
  destruct (H eq_refl) as [req [Hs [_ [_ [Hu _]]]]].
  exists req. split; [exact Hs | rewrite Hu; reflexivity].
Defined.

Lemma fetch_models_request_witness :
  emitted (@fetch_models ascii_runtime (lit "https://api.example.com/")
                         (lit "sk-test") net_refused) = [].
Proof.
  apply (@fetch_models_request ascii_runtime (lit "https://api.example.com/")
           (lit "sk-test") (lit "https://api.example.com") net_refused);
    reflexivity.
Defined.

Lemma fetch_models_transport_failure_witness :
  outcome (@fetch_models ascii_runtime (lit "https://api.example.com/")
                         (lit "sk-test") net_timeout)
  = Raise (TimeoutError (lit "Request timed out")).
Proof.
  apply (@fetch_models_transport_failure ascii_runtime
           (lit "https://api.example.com/") (lit "sk-test")
           (lit "https://api.example.com") net_timeout HttpxTimeoutException);
    try reflexivity.
  intros req. reflexivity.
Defined.

(** ** Beyond the claims: the two chat paths *)

(** X5.  When the transport fails before any response, the streaming
    generator turns an httpx timeout into the single event of kind [TIMEOUT]
    and any other httpx request error into the single event of kind
    [NETWORK_ERROR], and ends normally; an exception of any other class
    leaves the generator with nothing yielded. *)
Theorem stream_chat_connect_failure
    (payload : SupplierChatRequest) (url : str) (net : Transport) (e : exn) :
  (forall req, net req = Failed e) ->
  let t := _stream_chat payload url net in
  let one_event kind message :=
    exists ev, _format_error_event kind (JStr message) = Ok ev /\
               emitted t = [ev] /\ outcome t = Ok tt in
  (is_httpx_timeout e = true ->
   one_event (lit "TIMEOUT") (lit "Request timed out")) /\
  (is_httpx_timeout e = false -> is_httpx_request_error e = true ->
   one_event (lit "NETWORK_ERROR") (lit "Network request failed")) /\
  (is_httpx_request_error e = false ->
   emitted t = [] /\ outcome t = Raise e).
Proof.
  intros Hnet t one_event. subst t one_event. cbv beta.
  unfold _stream_chat. cbv zeta. unfold try_except.
  rewrite (bind_client_stream_failed _ _ _ (Hnet _)).
  cbn [outcome sent emitted].
  split; [|split].
  - intros ->. exists timeout_event. rewrite timeout_event_ok.
    repeat split; reflexivity.
  - intros -> ->. exists network_error_event. rewrite network_error_event_ok.
    repeat split; reflexivity.
  - intros H. destruct e; try discriminate H; split; reflexivity.
Qed.

Lemma stream_chat_connect_failure_witness :
  emitted (_stream_chat (sample_payload (lit "sk-test") true)
                        (lit "https://api.example.com") net_refused)
  = [network_error_event].
Proof.
  destruct (@stream_chat_connect_failure
              (sample_payload (lit "sk-test") true)
              (lit "https://api.example.com") net_refused
              (HttpxRequestError (lit "All connection attempts failed"))
              (fun _ => eq_refl)) as [_ [H _]].
  destruct (H eq_refl eq_refl) as [ev [F [E _]]].
  rewrite E. rewrite network_error_event_ok in F. injection F as <-.
  reflexivity.
Defined.

(** X6.  When the transport fails in the middle of a healthy stream, the
    chunks relayed so far stay as they are and exactly one error event
    follows them -- [TIMEOUT] for an httpx timeout, [NETWORK_ERROR] for any
    other httpx request error -- after which the generator ends normally. *)
Theorem stream_chat_mid_stream_failure
    (payload : SupplierChatRequest) (url : str) (net : Transport)
    (r : HttpResponse) (e : exn) :
  (forall req, net req = Received r) ->
  status_code r < 400 ->
  read_failure r = Some e ->
  is_httpx_request_error e = true ->
  let t := _stream_chat payload url net in
  exists ev,
    _format_error_event
      (if is_httpx_timeout e then lit "TIMEOUT" else lit "NETWORK_ERROR")
      (JStr (if is_httpx_timeout e then lit "Request timed out"
             else lit "Network request failed")) = Ok ev /\
    emitted t = filter nonempty (chunks r) ++ [ev] /\
    outcome t = Ok tt.
Proof.
  intros Hnet Hs Hr He t.
  destruct (stream_chat_success_run payload url net Hnet Hs) as [E O].
  fold t in E, O. rewrite Hr in E, O.
  destruct e; try discriminate He; cbn [is_httpx_timeout].
  - exists timeout_event. rewrite timeout_event_ok. auto.
  - exists network_error_event. rewrite network_error_event_ok. auto.
Qed.

Lemma stream_chat_mid_stream_failure_witness :
  emitted (_stream_chat (sample_payload (lit "sk-test") true)
                        (lit "https://api.example.com")
                        (fun _ => Received cut_stream_response))
  = [[x64; x61; x74; x61]; [x3a; x20]; timeout_event].
Proof.
  destruct (@stream_chat_mid_stream_failure
              (sample_payload (lit "sk-test") true)
              (lit "https://api.example.com")
              (fun _ => Received cut_stream_response) cut_stream_response
              HttpxTimeoutException (fun _ => eq_refl) eq_refl eq_refl eq_refl)
    as [ev [F [E _]]].
  rewrite E. cbn [is_httpx_timeout] in F. rewrite timeout_event_ok in F.
  injection F as <-. reflexivity.
Defined.










(** X11.  Whatever the kind and the message, an event returned by
    [_format_error_event] is one SSE frame: decoded, it is the line
    [event: error], one [data: ] line whose payload holds no raw line feed
    or carriage return, and the closing blank line. *)
Theorem error_event_is_one_frame (kind message : str) (bs : bytes) :
  _format_error_event kind (JStr message) = Ok bs ->
  exists payload,
    utf8_decode bs
    = Some (lit "event: error" ++ nl ++ lit "data: " ++ payload ++ nl ++ nl) /\
    existsb is_line_break payload = false.
Proof.
  rewrite format_error_event_text.
  destruct (utf8_encode (sse_error_text kind message)) as [b|] eqn:E;
    [|discriminate].
  intros H. injection H as <-.
  exists (lit "{" ++ dquote ++ lit "code" ++ dquote ++ lit ": " ++
          dquote ++ flat_map json_escape_cp kind ++ dquote ++
          lit ", " ++ dquote ++ lit "message" ++ dquote ++ lit ": " ++
          dquote ++ flat_map json_escape_cp message ++ dquote ++ lit "}").
  split.
  - rewrite (decode_encode _ E). f_equal. unfold sse_error_text.
    change (lit "data: {") with (lit "data: " ++ lit "{").
    repeat rewrite <- app_assoc. reflexivity.
  - repeat rewrite existsb_app. rewrite !json_escape_no_line_break.
    reflexivity.
Qed.

Lemma error_event_is_one_frame_witness :
  exists payload,
    utf8_decode timeout_event
    = Some (lit "event: error" ++ nl ++ lit "data: " ++ payload ++ nl ++ nl) /\
    existsb is_line_break payload = false.
Proof.
  exact (@error_event_is_one_frame (lit "TIMEOUT") (lit "Request timed out")
           timeout_event timeout_event_ok).
Defined.

(** ** Beyond the claims: [app/main.py], the CORS origins *)

Lemma split_on_not_nil c s : split_on c s <> [].
Proof.
  destruct s as [|x r]; simpl; [discriminate|].
  destruct (x =? c)%N; [discriminate|].
  destruct (split_on c r); discriminate.
Qed.

Lemma split_on_join c s : join [c] (split_on c s) = s.
Proof.
  induction s as [|x r IH]; [reflexivity|].
  simpl. destruct (N.eqb_spec x c).
  - subst. destruct (split_on c r) as [|p ps] eqn:E.
    + exfalso. exact (split_on_not_nil _ _ E).
    + cbn [join]. cbn [join] in IH. rewrite IH. reflexivity.
  - destruct (split_on c r) as [|p ps] eqn:E.
    + exfalso. exact (split_on_not_nil _ _ E).
    + destruct ps; cbn [join] in *; rewrite <- IH; reflexivity.
Qed.

Lemma split_on_pieces c s :
  Forall (fun p => contains c p = false) (split_on c s).
Proof.
  induction s as [|x r IH]; simpl.
  - repeat constructor.
  - destruct (N.eqb_spec x c).
    + constructor; [reflexivity | exact IH].
    + destruct (split_on c r) as [|p ps]; [repeat constructor|].
      * unfold contains, is_cp. cbn [existsb].
        destruct (N.eqb_spec c x); [congruence | reflexivity].
      * inversion IH as [|? ? Hp Hps]; subst. constructor; [|exact Hps].
        unfold contains, is_cp in *. cbn [existsb].
        destruct (N.eqb_spec c x); [congruence | exact Hp].
Qed.

Lemma split_on_length c s :
  List.length (split_on c s) = S (List.length (filter (N.eqb c) s)).
Proof.
  induction s as [|x r IH]; [reflexivity|].
  simpl. rewrite (N.eqb_sym c x). destruct (x =? c)%N.
  - cbn [List.length]. rewrite IH. reflexivity.
  - destruct (split_on c r) as [|p ps] eqn:E.
    + exfalso. exact (split_on_not_nil _ _ E).
    + exact IH.
Qed.

Lemma allow_origins_split env :
  allow_origins env
  = split_on comma (match env with Some v => v | None => lit "*" end).
Proof.
  unfold allow_origins. cbv zeta.
  destruct (str_eqb _ (lit "*")) eqn:E; [|reflexivity].
  apply str_eqb_eq in E. rewrite E. reflexivity.
Qed.

(** X12.  The origins handed to the CORS middleware are the configured
    value cut at its commas and nothing else: joining them with commas
    gives the value of [ARCAMAGE_CORS_ORIGINS] back (["*"] when it is
    unset), so no origin is trimmed, dropped or reordered. *)
Theorem allow_origins_round_trip (env : option str) :
  join [comma] (allow_origins env)
  = match env with Some v => v | None => lit "*" end.
Proof. rewrite allow_origins_split. apply split_on_join. Qed.

(** X13.  The list of origins is never empty, none of its entries holds a
    comma, and it has one entry more than the configured value has commas;
    an unset variable gives the single wildcard, an empty one the single
    empty origin. *)
Theorem allow_origins_shape (env : option str) :
  let value := match env with Some v => v | None => lit "*" end in
  allow_origins env <> [] /\
  Forall (fun origin => contains comma origin = false) (allow_origins env) /\
  List.length (allow_origins env)
  = S (List.length (filter (N.eqb comma) value)) /\
  allow_origins None = [lit "*"] /\
  allow_origins (Some []) = [[]].
Proof.
  intros value. rewrite allow_origins_split. fold value.
  split; [apply split_on_not_nil|].
  split; [apply split_on_pieces|].
  split; [apply split_on_length|].
  split; reflexivity.
Qed.

(** ** Beyond the claims: [app/api/remote_import.py], versions *)

(** *** The decimal text of an integer *)

Lemma utf8_decode_ascii bs :
  Forall (fun b => (Byte.to_N b < 128)%N) bs ->
  utf8_decode bs = Some (map Byte.to_N bs).
Proof.
  induction 1 as [|b r Hb _ IH]; [reflexivity|].
  cbn [utf8_decode map]. apply N.ltb_lt in Hb. rewrite Hb, IH. reflexivity.
Qed.

Lemma string_of_uint_bytes d :
  Forall is_int_byte (list_byte_of_string (NilEmpty.string_of_uint d)).
Proof.
  induction d; cbn [NilEmpty.string_of_uint list_byte_of_string];
    constructor; try assumption; reflexivity.
Qed.

Lemma string_of_int_bytes d :
  Forall is_int_byte (list_byte_of_string (NilZero.string_of_int d)).
Proof.
  destruct d as [d|d]; cbn [NilZero.string_of_int].
  - destruct d; try apply string_of_uint_bytes. repeat constructor.
  - cbn [list_byte_of_string]. constructor; [reflexivity|].
    destruct d; try apply string_of_uint_bytes. repeat constructor.
Qed.

Lemma is_int_byte_ascii b : is_int_byte b -> (Byte.to_N b < 128)%N.
Proof.
  unfold is_int_byte, is_int_char. intros H.
  apply orb_true_iff in H as [H | H].
  - apply N.eqb_eq in H. lia.
  - apply andb_true_iff in H as [_ H]. apply N.leb_le in H. lia.
Qed.

Lemma str_of_int_bytes z :
  str_of_int z
  = map Byte.to_N (list_byte_of_string (NilZero.string_of_int (Z.to_int z))).
Proof.
  unfold str_of_int, lit. rewrite utf8_decode_ascii; [reflexivity|].
  eapply Forall_impl; [| apply string_of_int_bytes].
  intros b. apply is_int_byte_ascii.
Qed.

(** [str(n)] consists of digits and at most a minus sign. *)
Lemma str_of_int_chars z : forallb is_int_char (str_of_int z) = true.
Proof.
  rewrite str_of_int_bytes. apply forallb_forall. intros c Hc.
  apply in_map_iff in Hc as [b [<- Hb]].
  pose proof (string_of_int_bytes (Z.to_int z)) as F.
  rewrite Forall_forall in F. exact (F b Hb).
Qed.

Lemma str_of_int_no_dot z : contains dot (str_of_int z) = false.
Proof.
  pose proof (str_of_int_chars z) as H. unfold contains.
  induction (str_of_int z) as [|c r IH]; [reflexivity|].
  cbn [forallb] in H. apply andb_true_iff in H as [Hc Hr].
  cbn [existsb]. rewrite (IH Hr), orb_false_r.
  unfold is_cp, dot. unfold is_int_char in Hc.
  destruct (N.eqb_spec 46 c); [subst; discriminate | reflexivity].
Qed.

Lemma str_of_int_nonempty z : str_of_int z <> [].
Proof.
  rewrite str_of_int_bytes.
  destruct z; cbn [Z.to_int NilZero.string_of_int]; try discriminate.
  pose proof (DecimalPos.Unsigned.to_uint_nonnil p) as N.
  destruct (Pos.to_uint p); try contradiction; discriminate.
Qed.

(** The standard library's reader gives the integer back. *)
Lemma decimal_int_str_of_int z : decimal_int (str_of_int z) = Some z.
Proof.
  unfold decimal_int, ascii_string_of. rewrite str_of_int_bytes, map_map.
  rewrite (map_ext _ (fun b => b)), map_id.
  - rewrite string_of_list_byte_of_string, NilZero.isi.
    + cbn [option_map]. rewrite DecimalZ.of_to. reflexivity.
    + destruct z; cbn [Z.to_int]; try discriminate.
      intros H. injection H as H.
      exact (DecimalPos.Unsigned.to_uint_nonnil _ H).
    + destruct z; cbn [Z.to_int]; try discriminate.
      intros H. injection H as H.
      exact (DecimalPos.Unsigned.to_uint_nonnil _ H).
  - intros b. unfold byte_of_N. rewrite Byte.of_to_N. reflexivity.
Qed.

(** A reader for the concrete runs: plain decimal text only. *)
Definition decimal_reader : PyInt :=
  {| py_int := decimal_int;
     py_int_str_of_int := fun z _ => decimal_int_str_of_int z |}.

(** *** Cutting at dots *)

Lemma split_on_no_sep c s : contains c s = false -> split_on c s = [s].
Proof.
  unfold contains, is_cp. induction s as [|x r IH]; [reflexivity|].
  cbn [existsb split_on]. rewrite (N.eqb_sym c x). intros H.
  apply orb_false_iff in H as [Hx Hr]. rewrite Hx, (IH Hr). reflexivity.
Qed.

Lemma split_on_app c x y :
  contains c x = false -> split_on c (x ++ c :: y) = x :: split_on c y.
Proof.
  unfold contains, is_cp. induction x as [|a r IH]; cbn [app split_on existsb].
  - intros _. rewrite N.eqb_refl. reflexivity.
  - rewrite (N.eqb_sym c a). intros H.
    apply orb_false_iff in H as [Ha Hr]. rewrite Ha, (IH Hr). reflexivity.
Qed.

Section Versions.
Context {pi : PyInt}.
Import RemoteImport.

Lemma short_small z : (Z.abs z < 1000) -> short_decimal z.
Proof.
  intros H. unfold short_decimal.
  assert (E : exists n, (n < 2000)%nat /\ z = Z.of_nat n - 1000).
  { exists (Z.to_nat (z + 1000)). split; lia. }
  destruct E as [n [Hn ->]]. clear H.
  assert (G : forallb (fun k => (List.length (str_of_int (Z.of_nat k - 1000))
                                <=? 640)%nat) (seq 0 2000) = true)
    by (vm_compute; reflexivity).
  rewrite forallb_forall in G. apply Nat.leb_le. apply (G n).
  apply in_seq. lia.
Qed.

Lemma minimum_version : parse_version MIN_ARCAFERRY_VERSION = (0, 1, 0).
Proof.
  change MIN_ARCAFERRY_VERSION
    with (str_of_int 0 ++ dot :: str_of_int 1 ++ dot :: str_of_int 0).
  unfold parse_version. cbv zeta.
  rewrite split_on_app by apply str_of_int_no_dot.
  rewrite split_on_app by apply str_of_int_no_dot.
  rewrite split_on_no_sep by apply str_of_int_no_dot.
  unfold int_part, part. cbn [nth_error List.length Nat.ltb Nat.leb].
  rewrite !py_int_str_of_int by (apply short_small; reflexivity).
  reflexivity.
Qed.

Lemma parse_version_dotted_run (a b c : Z) :
  short_decimal a -> short_decimal b -> short_decimal c ->
  parse_version (str_of_int a ++ [dot] ++ str_of_int b) = (a, b, 0) /\
  parse_version (dotted a b c) = (a, b, c) /\
  (forall rest, parse_version (dotted a b c ++ [dot] ++ rest) = (a, b, c)).
Proof.
  intros Ha Hb Hc. unfold dotted, parse_version. cbv zeta.
  split; [|split; [|intros rest]];
    repeat (rewrite <- ?app_assoc; cbn [app]).
  - rewrite split_on_app by apply str_of_int_no_dot.
    rewrite split_on_no_sep by apply str_of_int_no_dot.
    unfold int_part, part. cbn [nth_error List.length Nat.ltb Nat.leb].
    rewrite !py_int_str_of_int by assumption. reflexivity.
  - rewrite split_on_app by apply str_of_int_no_dot.
    rewrite split_on_app by apply str_of_int_no_dot.
    rewrite split_on_no_sep by apply str_of_int_no_dot.
    unfold int_part, part. cbn [nth_error List.length Nat.ltb Nat.leb].
    rewrite !py_int_str_of_int by assumption. reflexivity.
  - rewrite split_on_app by apply str_of_int_no_dot.
    rewrite split_on_app by apply str_of_int_no_dot.
    rewrite split_on_app by apply str_of_int_no_dot.
    unfold int_part, part. cbn [nth_error List.length Nat.ltb Nat.leb].
    rewrite !py_int_str_of_int by assumption. reflexivity.
Qed.

(** X14.  [parse_version] reads back a version written from integers: the
    text [a.b] gives [(a, b, 0)], the text [a.b.c] gives [(a, b, c)], and
    whatever follows a fourth dot is ignored. *)
Theorem parse_version_reads_dotted (a b c : Z) :
  short_decimal a -> short_decimal b -> short_decimal c ->
  parse_version (str_of_int a ++ [dot] ++ str_of_int b) = (a, b, 0) /\
  parse_version (dotted a b c) = (a, b, c) /\
  (forall rest, parse_version (dotted a b c ++ [dot] ++ rest) = (a, b, c)).
Proof. exact (@parse_version_dotted_run a b c). Qed.

(** X15.  A version text without a dot never parses, whatever number it
    holds: [parse_version] gives [(0, 0, 0)], and a client announcing such a
    version is refused with a message naming it. *)
Theorem version_without_dot_refused (v : str) :
  contains dot v = false ->
  parse_version v = (0, 0, 0) /\
  (v <> [] ->
   check_version_compatibility (Some v)
   = Some (lit "Arcaferry version " ++ v
           ++ lit " is not compatible. Minimum required: 0.1.0")).
Proof.
  intros H.
  assert (P : parse_version v = (0, 0, 0)).
  { unfold parse_version. cbv zeta. rewrite (split_on_no_sep _ _ H).
    unfold int_part, part. cbn [nth_error].
    destruct (py_int v); reflexivity. }
  split; [exact P|]. intros Hv.
  unfold check_version_compatibility.
  destruct v as [|x r]; [contradiction|]. cbn [nonempty negb].
  rewrite P, minimum_version. reflexivity.
Qed.

Lemma tuple_lt_minimum a b c :
  tuple_lt (a, b, c) (0, 1, 0) = false <-> at_least_0_1_0 a b c.
Proof.
  unfold tuple_lt, at_least_0_1_0.
  destruct (Z.ltb_spec a 0), (Z.eqb_spec a 0), (Z.ltb_spec b 1),
    (Z.eqb_spec b 1), (Z.ltb_spec c 0); cbn; split; intros; try lia;
    try discriminate.
Qed.

Lemma check_version_dotted_run (a b c : Z) :
  short_decimal a -> short_decimal b -> short_decimal c ->
  (at_least_0_1_0 a b c ->
   check_version_compatibility (Some (dotted a b c)) = None) /\
  (~ at_least_0_1_0 a b c ->
   check_version_compatibility (Some (dotted a b c))
   = Some (lit "Arcaferry version " ++ dotted a b c
           ++ lit " is not compatible. Minimum required: 0.1.0")).
Proof.
  intros Ha Hb Hc.
  destruct (parse_version_dotted_run Ha Hb Hc) as [_ [P _]].
  unfold check_version_compatibility.
  assert (N : nonempty (dotted a b c) = true).
  { unfold dotted. destruct (str_of_int a) eqn:E; reflexivity. }
  rewrite N, P, minimum_version. cbn [negb].
  pose proof (tuple_lt_minimum a b c) as T.
  destruct (tuple_lt (a, b, c) (0, 1, 0)).
  - split; [intros H; apply T in H; discriminate | reflexivity].
  - split; [reflexivity | intros H; exfalso; apply H, T; reflexivity].
Qed.

(** X16.  A client announcing the version [a.b.c] is admitted exactly when
    [(a, b, c)] is at least [(0, 1, 0)] in the order of tuples; otherwise it
    is refused with the message naming its version and the minimum. *)
Theorem check_version_dotted (a b c : Z) :
  short_decimal a -> short_decimal b -> short_decimal c ->
  (at_least_0_1_0 a b c ->
   check_version_compatibility (Some (dotted a b c)) = None) /\
  (~ at_least_0_1_0 a b c ->
   check_version_compatibility (Some (dotted a b c))
   = Some (lit "Arcaferry version " ++ dotted a b c
           ++ lit " is not compatible. Minimum required: 0.1.0")).
Proof. exact (@check_version_dotted_run a b c). Qed.

End Versions.

Lemma parse_version_reads_dotted_witness :
  @RemoteImport.parse_version decimal_reader (lit "1.12.3") = (1, 12, 3).
Proof.
  apply (@parse_version_reads_dotted decimal_reader 1 12 3);
    apply short_small; reflexivity.
Defined.

Lemma version_without_dot_refused_witness :
  @RemoteImport.parse_version decimal_reader (lit "2") = (0, 0, 0).
Proof.
  apply (@version_without_dot_refused decimal_reader (lit "2")). reflexivity.
Defined.

Lemma check_version_dotted_witness :
  @RemoteImport.check_version_compatibility decimal_reader (Some (lit "0.0.9"))
  = Some (lit "Arcaferry version 0.0.9 is not compatible. Minimum required: 0.1.0").
Proof.
  apply (@check_version_dotted decimal_reader 0 0 9);
    try (apply short_small; reflexivity).
  unfold at_least_0_1_0. lia.
Defined.

(** ** Beyond the claims: [app/api/remote_import.py], the import route *)

Section PendingStore.
Import RemoteImport.
Context {V : Type}.

Lemma store_get_set_same (d : store V) k v : store_get (store_set d k v) k = Some v.
Proof.
  induction d as [|[k' v'] r IH]; cbn [store_set store_get].
  - replace (str_eqb k k) with true; [reflexivity|].
    symmetry. apply str_eqb_eq. reflexivity.
  - destruct (str_eqb k' k) eqn:E; cbn [store_get]; rewrite E;
      [reflexivity | exact IH].
Qed.

Lemma store_get_set_other (d : store V) k v k' :
  k <> k' -> store_get (store_set d k v) k' = store_get d k'.
Proof.
  intros N. induction d as [|[k0 v0] r IH]; cbn [store_set store_get].
  - destruct (str_eqb k k') eqn:E; [apply str_eqb_eq in E; contradiction|].
    reflexivity.
  - destruct (str_eqb k0 k) eqn:E; cbn [store_get].
    + apply str_eqb_eq in E. subst k0.
      destruct (str_eqb k k') eqn:E'; [apply str_eqb_eq in E'; contradiction|].
      reflexivity.
    + destruct (str_eqb k0 k'); [reflexivity | exact IH].
Qed.

Lemma store_get_remove_same (d : store V) k : store_get (store_remove d k) k = None.
Proof.
  unfold store_remove. induction d as [|[k' v'] r IH]; [reflexivity|].
  cbn [filter fst]. destruct (str_eqb k' k) eqn:E; cbn [negb]; [exact IH|].
  cbn [store_get]. rewrite E. exact IH.
Qed.

Lemma store_get_remove_other (d : store V) k k' :
  k <> k' -> store_get (store_remove d k) k' = store_get d k'.
Proof.
  intros N. unfold store_remove. induction d as [|[k0 v0] r IH]; [reflexivity|].
  cbn [filter fst store_get]. destruct (str_eqb k0 k) eqn:E; cbn [negb].
  - apply str_eqb_eq in E. subst k0.
    destruct (str_eqb k k') eqn:E'; [apply str_eqb_eq in E'; contradiction|].
    exact IH.
  - cbn [store_get]. destruct (str_eqb k0 k'); [reflexivity | exact IH].
Qed.

End PendingStore.

(** X17.  Handing out a pending card removes it and nothing else: after
    [get_pending_card] the requested id is no longer pending, every other
    id still holds what it held, and a request for an id that is not
    pending answers 404 [Card not found] and leaves the state as it was. *)
Theorem get_pending_card_effect
    (st : RemoteImport.app_state) (card_id : str) :
  let st' := snd (RemoteImport.get_pending_card st card_id) in
  RemoteImport.store_get (RemoteImport.pending_of st') card_id = None /\
  (forall other, other <> card_id ->
     RemoteImport.store_get (RemoteImport.pending_of st') other
     = RemoteImport.store_get (RemoteImport.pending_of st) other) /\
  (RemoteImport.store_get (RemoteImport.pending_of st) card_id = None ->
   RemoteImport.get_pending_card st card_id
   = (inl (RemoteImport.HTTPException 404 (lit "Card not found")), st)).
Proof.
  unfold RemoteImport.get_pending_card. cbv zeta.
  destruct (RemoteImport.store_get (RemoteImport.pending_of st) card_id)
    as [entry|] eqn:E.
  - destruct (dict_get entry (lit "card"));
      cbn [snd RemoteImport.pending_of];
      (split; [apply store_get_remove_same|]; split; [|discriminate];
       intros other N; apply store_get_remove_other; congruence).
  - cbn [snd]. split; [exact E|]. split; [reflexivity|]. reflexivity.
Qed.

Section ImportRoute.
Import RemoteImport.
Variable Card : Type.
Variable model_dump : Card -> json.
Variable card_name : Card -> str.
Variable import_card : bytes -> call Card str.
Variable model_validate : json -> call Card Z.
Context {pi : PyInt}.

Let route := import_remote_card model_dump card_name import_card model_validate.

Lemma check_version_message_nonempty v message :
  check_version_compatibility v = Some message -> nonempty message = true.
Proof.
  unfold check_version_compatibility.
  destruct v as [v|]; [|discriminate].
  destruct (negb (nonempty v)); [discriminate|].
  destruct (tuple_lt _ _); [|discriminate].
  intros H. injection H as <-. reflexivity.
Qed.

(** Every way through the route: a failure leaves the state alone, a
    success stores one entry for the card a collaborator returned. *)
Lemma import_body_cases settings request st :
  let r := import_body model_dump card_name import_card model_validate
             settings request st in
  (success (fst r) = false /\ card_id (fst r) = None /\ snd r = st) \/
  (exists card,
      card_source import_card model_validate request card /\
      r = keep_card model_dump card_name st (uuid4 request) card).
Proof.
  unfold import_body, card_source. cbv zeta.
  destruct (file request) as [[content|text]|].
  - destruct (_ >? _); [left; repeat split|].
    destruct (import_card content) as [card| |] eqn:E;
      [right; exists card; split; [left; exists content; auto | reflexivity]
      | left; repeat split ..].
  - left. repeat split.
  - destruct (str_in _ _); [|left; repeat split].
    destruct (request_json request) as [body| |]; [|left; repeat split ..].
    destruct (model_validate body) as [card| |] eqn:E;
      [right; exists card; split; [right; split; [reflexivity|]; exists body; auto
                                  | reflexivity]
      | left; repeat split ..].
Qed.

Lemma import_route_cases settings request st :
  (success (fst (route settings request st)) = false /\
   card_id (fst (route settings request st)) = None /\
   snd (route settings request st) = st) \/
  (exists card,
      card_source import_card model_validate request card /\
      route settings request st
      = keep_card model_dump card_name st (uuid4 request) card).
Proof.
  unfold route, import_remote_card.
  destruct (check_version_compatibility _) as [m|];
    [destruct (nonempty m); [left; repeat split|]|];
    apply import_body_cases.
Qed.

(** X18.  The import route touches the pending store only when it reports
    success: a response with [success = false] carries no card id and
    leaves the state as it was; a response with [success = true] carries
    the first eight characters of the UUID as card id, no error code, and
    the state then holds, under that id, the dump and name of the card
    that [import_card] (for an upload) or [model_validate] (for a JSON
    body) returned -- all other ids unchanged. *)
Theorem import_store_effect
    (settings : Settings) (request : ImportRequest) (st : app_state) :
  let response := fst (route settings request st) in
  let st' := snd (route settings request st) in
  (success response = false -> card_id response = None /\ st' = st) /\
  (success response = true ->
   exists card,
     card_source import_card model_validate request card /\
     card_id response = Some (firstn 8 (uuid4 request)) /\
     error_code response = None /\
     store_get (pending_of st') (firstn 8 (uuid4 request))
     = Some (pending_entry (model_dump card) (card_name card)) /\
     forall other, other <> firstn 8 (uuid4 request) ->
       store_get (pending_of st') other = store_get (pending_of st) other).
Proof.
  cbv zeta.
  destruct (import_route_cases settings request st)
    as [[Hf [Hc Hs]] | [card [Src ->]]].
  - rewrite Hf, Hc, Hs. split; [auto | discriminate].
  - unfold keep_card. cbn [fst snd success card_id error_code pending_of].
    split; [discriminate|]. intros _. exists card.
    split; [exact Src|]. split; [reflexivity|]. split; [reflexivity|].
    split; [apply store_get_set_same|].
    intros other N. apply store_get_set_other. congruence.
Qed.

(** X19.  What the import route stored can be fetched once: after a
    successful import, [get_pending_card] with the returned id answers
    [{"success": true, "card": <the card's dump>}], and asking again with
    the same id answers 404. *)
Theorem import_then_fetch_once
    (settings : Settings) (request : ImportRequest) (st : app_state) :
  success (fst (route settings request st)) = true ->
  exists id card st'',
    card_source import_card model_validate request card /\
    card_id (fst (route settings request st)) = Some id /\
    get_pending_card (snd (route settings request st)) id
    = (inr (JDict [(lit "success", JBool true);
                   (lit "card", model_dump card)]), st'') /\
    get_pending_card st'' id
    = (inl (HTTPException 404 (lit "Card not found")), st'').
Proof.
  intros Hs.
  destruct (import_route_cases settings request st)
    as [[Hf _] | [card [Src E]]]; [congruence|].
  rewrite E. unfold keep_card. cbn [fst snd card_id].
  set (id := firstn 8 (uuid4 request)).
  set (stored := store_set (pending_of st) id _).
  exists id, card, (Some (store_remove stored id)).
  split; [exact Src|]. split; [reflexivity|].
  unfold get_pending_card. cbv zeta. cbn [pending_of].
  unfold stored at 1. rewrite store_get_set_same.
  split; [reflexivity|].
  rewrite store_get_remove_same. reflexivity.
Qed.

(** X20.  A card that was just imported shows up in the pending listing
    under its id and name. *)
Theorem import_then_listed
    (settings : Settings) (request : ImportRequest) (st : app_state) :
  success (fst (route settings request st)) = true ->
  exists id card,
    card_source import_card model_validate request card /\
    card_id (fst (route settings request st)) = Some id /\
    In (JDict [(lit "id", JStr id); (lit "name", JStr (card_name card))])
       (listed_cards (get_pending_imports (snd (route settings request st)))).
Proof.
  intros Hs.
  destruct (import_route_cases settings request st)
    as [[Hf _] | [card [Src E]]]; [congruence|].
  rewrite E. unfold keep_card. cbn [fst snd card_id].
  set (id := firstn 8 (uuid4 request)).
  exists id, card. split; [exact Src|]. split; [reflexivity|].
  unfold get_pending_imports, listed_cards. cbv zeta. cbn [pending_of].
  change (dict_get _ (lit "cards")) with
    (Some (JList (map (fun kv : str * pydict =>
                         JDict [(lit "id", JStr (fst kv));
                                (lit "name",
                                 dict_get_default (snd kv) (lit "name")
                                   (JStr (lit "Unknown")))])
                      (store_set (pending_of st) id
                         [(lit "card", model_dump card);
                          (lit "name", JStr (card_name card))])))).
  cbv iota beta.
  induction (pending_of st) as [|[k v] r IH]; cbn [store_set map].
  - left. reflexivity.
  - destruct (str_eqb k id) eqn:Ek; cbn [map].
    + left. apply str_eqb_eq in Ek. subst k. reflexivity.
    + right. exact IH.
Qed.

Lemma is_prefix_app sub post : is_prefix sub (sub ++ post) = true.
Proof.
  induction sub as [|a r IH]; [reflexivity|].
  cbn [app is_prefix]. rewrite N.eqb_refl. exact IH.
Qed.

Lemma str_in_middle sub pre post : str_in sub (pre ++ sub ++ post) = true.
Proof.
  induction pre as [|a r IH]; cbn [app].
  - destruct (sub ++ post) eqn:E; cbn [str_in]; rewrite <- E, is_prefix_app;
      reflexivity.
  - cbn [str_in]. rewrite IH. apply orb_true_r.
Qed.

(** X21.  With an acceptable version, an upload decides the route alone:
    content longer than [max_upload_mb] mebibytes is refused with
    [VALIDATION_ERROR] and the limit in the message, whatever [import_card]
    would say and whatever the content type; content of at most that many
    bytes which [import_card] accepts is stored, the response naming the
    card. *)
Theorem import_upload_size_bound
    (settings : Settings) (request : ImportRequest) (st : app_state)
    (content : bytes) :
  check_version_compatibility (x_arcaferry_version request) = None ->
  file request = Some (UploadRead content) ->
  (Z.of_nat (List.length content) > max_upload_mb settings * 1048576 ->
   route settings request st
   = ({| success := false; card_id := None;
         message := Some (lit "File too large. Maximum size is "
                          ++ str_of_int (max_upload_mb settings) ++ lit "MB");
         error_code := Some (lit "VALIDATION_ERROR") |}, st)) /\
  (Z.of_nat (List.length content) <= max_upload_mb settings * 1048576 ->
   forall card, import_card content = Returned card ->
     fst (route settings request st)
     = {| success := true;
          card_id := Some (firstn 8 (uuid4 request));
          message := Some (lit "Card '" ++ card_name card
                           ++ lit "' imported successfully");
          error_code := None |}).
Proof.
  intros Hv Hf. unfold route, import_remote_card, import_body.
  rewrite Hv, Hf. unfold max_upload_bytes.
  split.
  - intros H. replace (_ >? _) with true by lia. reflexivity.
  - intros H card E. replace (_ >? _) with false by lia. rewrite E.
    reflexivity.
Qed.

(** X22.  Without an upload and with an acceptable version, the JSON body
    is read exactly when the content type holds [application/json]
    somewhere in it (parameters such as a charset do not matter): a body
    that [model_validate] accepts is then stored; any other content type is
    refused with [VALIDATION_ERROR] and the state is left alone. *)
Theorem import_json_content_type
    (settings : Settings) (request : ImportRequest) (st : app_state) :
  check_version_compatibility (x_arcaferry_version request) = None ->
  file request = None ->
  (forall pre post body card,
     content_type request = pre ++ lit "application/json" ++ post ->
     request_json request = Returned body ->
     model_validate body = Returned card ->
     route settings request st
     = keep_card model_dump card_name st (uuid4 request) card) /\
  (str_in (lit "application/json") (content_type request) = false ->
   route settings request st
   = ({| success := false; card_id := None;
         message := Some (lit "Unsupported content type. Use application/json or multipart/form-data with PNG file.");
         error_code := Some (lit "VALIDATION_ERROR") |}, st)).
Proof.
  intros Hv Hf. unfold route, import_remote_card, import_body.
  rewrite Hv, Hf. split.
  - intros pre post body card Hc Hj Hm.
    rewrite Hc, str_in_middle, Hj, Hm. reflexivity.
  - intros ->. reflexivity.
Qed.

(** X23.  A client announcing a version [a.b.c] below [0.1.0] gets
    [VERSION_MISMATCH] with the message naming its version, whatever else
    the request holds, and the state is left alone. *)
Theorem import_version_gate
    (settings : Settings) (request : ImportRequest) (st : app_state)
    (a b c : Z) :
  short_decimal a -> short_decimal b -> short_decimal c ->
  ~ at_least_0_1_0 a b c ->
  x_arcaferry_version request = Some (dotted a b c) ->
  route settings request st
  = ({| success := false; card_id := None;
        message := Some (lit "Arcaferry version " ++ dotted a b c
                         ++ lit " is not compatible. Minimum required: 0.1.0");
        error_code := Some (lit "VERSION_MISMATCH") |}, st).
Proof.
  intros Ha Hb Hc Hlow Hv. unfold route, import_remote_card. rewrite Hv.
  destruct (check_version_dotted_run Ha Hb Hc) as [_ H].
  rewrite (H Hlow). reflexivity.
Qed.

End ImportRoute.

Lemma get_pending_card_effect_witness :
  RemoteImport.get_pending_card None (lit "3f2b8c1e")
  = (inl (RemoteImport.HTTPException 404 (lit "Card not found")), None).
Proof.
  apply (get_pending_card_effect None (lit "3f2b8c1e")). reflexivity.
Defined.

Lemma import_store_effect_witness :
  snd (@RemoteImport.import_remote_card str toy_dump (fun n => n) toy_import
         toy_validate decimal_reader default_settings
         (toy_request None None (lit "text/plain") JNull) None)
  = None.
Proof.
  apply (@import_store_effect str toy_dump (fun n => n) toy_import toy_validate
           decimal_reader default_settings
           (toy_request None None (lit "text/plain") JNull) None).
  reflexivity.
Defined.

Lemma import_then_fetch_once_witness :
  exists id card st'',
    card_source toy_import toy_validate
      (toy_request None None (lit "application/json") (JStr (lit "Alice")))
      card /\
    RemoteImport.card_id
      (fst (@RemoteImport.import_remote_card str toy_dump (fun n => n)
              toy_import toy_validate decimal_reader default_settings
              (toy_request None None (lit "application/json")
                 (JStr (lit "Alice"))) None))
    = Some id /\
    RemoteImport.get_pending_card
      (snd (@RemoteImport.import_remote_card str toy_dump (fun n => n)
              toy_import toy_validate decimal_reader default_settings
              (toy_request None None (lit "application/json")
                 (JStr (lit "Alice"))) None)) id
    = (inr (JDict [(lit "success", JBool true); (lit "card", toy_dump card)]),
       st'') /\
    RemoteImport.get_pending_card st'' id
    = (inl (RemoteImport.HTTPException 404 (lit "Card not found")), st'').
Proof.
  apply (@import_then_fetch_once str toy_dump (fun n => n) toy_import
           toy_validate decimal_reader default_settings
           (toy_request None None (lit "application/json")
              (JStr (lit "Alice"))) None).
  reflexivity.
Defined.

Lemma import_then_listed_witness :
  exists id card,
    card_source toy_import toy_validate
      (toy_request None (Some (RemoteImport.UploadRead [x89; x50]))
         (lit "multipart/form-data") JNull) card /\
    RemoteImport.card_id
      (fst (@RemoteImport.import_remote_card str toy_dump (fun n => n)
              toy_import toy_validate decimal_reader default_settings
              (toy_request None (Some (RemoteImport.UploadRead [x89; x50]))
                 (lit "multipart/form-data") JNull) None))
    = Some id /\
    In (JDict [(lit "id", JStr id); (lit "name", JStr card)])
       (listed_cards
          (RemoteImport.get_pending_imports
             (snd (@RemoteImport.import_remote_card str toy_dump (fun n => n)
                     toy_import toy_validate decimal_reader default_settings
                     (toy_request None
                        (Some (RemoteImport.UploadRead [x89; x50]))
                        (lit "multipart/form-data") JNull) None)))).
Proof.
  apply (@import_then_listed str toy_dump (fun n => n) toy_import toy_validate
           decimal_reader default_settings
           (toy_request None (Some (RemoteImport.UploadRead [x89; x50]))
              (lit "multipart/form-data") JNull) None).
  reflexivity.
Defined.

Lemma import_upload_size_bound_witness :
  fst (@RemoteImport.import_remote_card str toy_dump (fun n => n) toy_import
         toy_validate decimal_reader {| max_upload_mb := 0 |}
         (toy_request None (Some (RemoteImport.UploadRead [x89; x50]))
            (lit "multipart/form-data") JNull) None)
  = {| RemoteImport.success := false; RemoteImport.card_id := None;
       RemoteImport.message :=
         Some (lit "File too large. Maximum size is 0MB");
       RemoteImport.error_code := Some (lit "VALIDATION_ERROR") |}.
Proof.
  destruct (@import_upload_size_bound str toy_dump (fun n => n) toy_import
              toy_validate decimal_reader {| max_upload_mb := 0 |}
              (toy_request None (Some (RemoteImport.UploadRead [x89; x50]))
                 (lit "multipart/form-data") JNull) None [x89; x50]
              eq_refl eq_refl) as [H _].
  rewrite H; [reflexivity | reflexivity].
Defined.

Lemma import_json_content_type_witness :
  fst (@RemoteImport.import_remote_card str toy_dump (fun n => n) toy_import
         toy_validate decimal_reader default_settings
         (toy_request None None (lit "application/json; charset=utf-8")
            (JStr (lit "Alice"))) None)
  = {| RemoteImport.success := true;
       RemoteImport.card_id := Some (lit "3f2b8c1e");
       RemoteImport.message := Some (lit "Card 'Alice' imported successfully");
       RemoteImport.error_code := None |}.
Proof.
  destruct (@import_json_content_type str toy_dump (fun n => n) toy_import
              toy_validate decimal_reader default_settings
              (toy_request None None (lit "application/json; charset=utf-8")
                 (JStr (lit "Alice"))) None eq_refl eq_refl) as [H _].
  rewrite (H [] (lit "; charset=utf-8") (JStr (lit "Alice")) (lit "Alice")
             eq_refl eq_refl eq_refl).
  reflexivity.
Defined.

Lemma import_version_gate_witness :
  fst (@RemoteImport.import_remote_card str toy_dump (fun n => n) toy_import
         toy_validate decimal_reader default_settings
         (toy_request (Some (lit "0.0.9")) None (lit "application/json")
            (JStr (lit "Alice"))) None)
  = {| RemoteImport.success := false; RemoteImport.card_id := None;
       RemoteImport.message :=
         Some (lit "Arcaferry version 0.0.9 is not compatible. Minimum required: 0.1.0");
       RemoteImport.error_code := Some (lit "VERSION_MISMATCH") |}.
Proof.
  rewrite (@import_version_gate str toy_dump (fun n => n) toy_import
             toy_validate decimal_reader default_settings
             (toy_request (Some (lit "0.0.9")) None (lit "application/json")
                (JStr (lit "Alice"))) None 0 0 9);
    try reflexivity; try (apply short_small; reflexivity).
  unfold at_least_0_1_0. lia.
Defined.

(** ** Beyond the claims: [app/api/suppliers.py] *)

(** X24.  The two supplier endpoints are the same probe: for the same base
    URL and API key, and whatever the [model] and [use_proxy] fields say,
    they send the same requests and either raise the same exception or
    both return [success = true], without error, over the same list of
    models, the connection result also saying [success = true].  A failed
    probe is never reported in a returned response. *)
Theorem supplier_routes_agree
    (rt : PyRuntime) (p : Suppliers.SupplierConnectionRequest)
    (q : Suppliers.SupplierModelsRequest) (net : Transport) :
  Suppliers.connection_base_url p = Suppliers.models_base_url q ->
  Suppliers.connection_api_key p = Suppliers.models_api_key q ->
  sent (Suppliers.test_supplier_connection p net)
  = sent (Suppliers.get_supplier_models q net) /\
  match outcome (Suppliers.test_supplier_connection p net),
        outcome (Suppliers.get_supplier_models q net) with
  | Ok a, Ok b =>
    Suppliers.success a = true /\ Suppliers.error a = None /\
    Suppliers.error_code a = None /\
    Suppliers.success b = true /\ Suppliers.error b = None /\
    Suppliers.error_code b = None /\
    exists found,
      outcome (fetch_models (Suppliers.models_base_url q)
                            (Suppliers.models_api_key q) net) = Ok found /\
      Suppliers.data a
      = Some {| Suppliers.connection_success := true;
                Suppliers.connection_message := lit "连接成功";
                Suppliers.connection_models := found |} /\
      Suppliers.data b = Some {| Suppliers.models := found |}
  | Raise e, Raise e' =>
    e = e' /\
    outcome (fetch_models (Suppliers.models_base_url q)
                          (Suppliers.models_api_key q) net) = Raise e
  | _, _ => False
  end.
Proof.
  intros Hu Hk.
  unfold Suppliers.test_supplier_connection, Suppliers.get_supplier_models.
  rewrite Hu, Hk. unfold bind.
  destruct (outcome (fetch_models _ _ net)) as [found|e]; cbn.
  - split; [reflexivity|]. repeat (split; [reflexivity|]).
    exists found. repeat split.
  - repeat split.
Qed.

Lemma supplier_routes_agree_witness :
  sent (@Suppliers.test_supplier_connection ascii_runtime
          {| Suppliers.connection_base_url := lit "https://api.example.com/";
             Suppliers.connection_api_key := lit "sk-test";
             Suppliers.connection_model := Some (lit "gpt-4o");
             Suppliers.connection_use_proxy := true |} net_timeout)
  = sent (@Suppliers.get_supplier_models ascii_runtime
            {| Suppliers.models_base_url := lit "https://api.example.com/";
               Suppliers.models_api_key := lit "sk-test";
               Suppliers.models_use_proxy := false |} net_timeout).
Proof.
  exact (proj1 (@supplier_routes_agree ascii_runtime
           {| Suppliers.connection_base_url := lit "https://api.example.com/";
              Suppliers.connection_api_key := lit "sk-test";
              Suppliers.connection_model := Some (lit "gpt-4o");
              Suppliers.connection_use_proxy := true |}
           {| Suppliers.models_base_url := lit "https://api.example.com/";
              Suppliers.models_api_key := lit "sk-test";
              Suppliers.models_use_proxy := false |} net_timeout
           eq_refl eq_refl)).
Defined.

(** ** Beyond the claims: trailing slashes of the base URL *)

Section TrailingSlashes.
Context {rt : PyRuntime}.


Lemma two_slashes_dispatch {T} (url : str) (F : str -> T) (G : T) :
  match url with
  | 47%N :: 47%N :: tail => F tail
  | _ => G
  end
  = match url with
    | a :: b :: tail =>
      if (a =? slash)%N && (b =? slash)%N then F tail else G
    | _ => G
    end.
Proof.
  destruct url as [|a [|b tail]]; [reflexivity| |].
  - destruct a as [|p]; [reflexivity|].
    do 6 (try (destruct p as [p|p|]; try reflexivity)).
  - destruct a as [|p]; [reflexivity|].
    do 6 (try (destruct p as [p|p|]; try reflexivity)).
    destruct b as [|q]; [reflexivity|].
    do 6 (try (destruct q as [q|q|]; try reflexivity)).
Qed.

Lemma urlparse_in_steps url : urlparse url = urlparse_steps url.
Proof.
  unfold urlparse, urlparse_steps, split_scheme, parse_authority, url_text.
  set (w := filter _ _).
  destruct (span_until (is_cp colon) w) as [pre post].
  destruct pre as [|c0 pre']; [apply two_slashes_dispatch|].
  destruct post as [|c after]; [apply two_slashes_dispatch|].
  destruct (_ && _); apply two_slashes_dispatch.
Qed.


Lemma lstrip_by_idem p s : lstrip_by p (lstrip_by p s) = lstrip_by p s.
Proof.
  induction s as [|c r IH]; [reflexivity|].
  cbn [lstrip_by]. destruct (p c) eqn:E; [exact IH|].
  cbn [lstrip_by]. rewrite E. reflexivity.
Qed.

Lemma rstrip_by_idem p s : rstrip_by p (rstrip_by p s) = rstrip_by p s.
Proof.
  unfold rstrip_by. rewrite rev_involutive, lstrip_by_idem. reflexivity.
Qed.

Lemma lstrip_by_app_kept p a b :
  forallb (fun c => negb (p c)) b = true ->
  lstrip_by p (a ++ b) = lstrip_by p a ++ b.
Proof.
  intros Hb. induction a as [|c r IH]; cbn [app lstrip_by].
  - destruct b as [|c r]; [reflexivity|].
    cbn [forallb] in Hb. apply andb_true_iff in Hb as [Hc _].
    cbn [lstrip_by]. destruct (p c); [discriminate | reflexivity].
  - destruct (p c); [exact IH | reflexivity].
Qed.

Lemma filter_all {A} (f : A -> bool) l : forallb f l = true -> filter f l = l.
Proof.
  induction l as [|a r IH]; [reflexivity|].
  cbn [forallb filter]. intros H. apply andb_true_iff in H as [Ha Hr].
  rewrite Ha, (IH Hr). reflexivity.
Qed.

Lemma span_until_app p a b :
  span_until p (a ++ b)
  = match snd (span_until p a) with
    | [] => (a ++ fst (span_until p b), snd (span_until p b))
    | _ :: _ => (fst (span_until p a), snd (span_until p a) ++ b)
    end.
Proof.
  induction a as [|c r IH]; cbn [app span_until].
  - destruct (span_until p b); reflexivity.
  - destruct (p c) eqn:E; [reflexivity|].
    rewrite IH. destruct (span_until p r) as [x y]. cbn [fst snd].
    destruct y; reflexivity.
Qed.

Lemma span_until_none p b :
  forallb (fun c => negb (p c)) b = true -> span_until p b = (b, []).
Proof.
  induction b as [|c r IH]; [reflexivity|].
  cbn [forallb span_until]. intros H. apply andb_true_iff in H as [Hc Hr].
  destruct (p c); [discriminate|]. rewrite (IH Hr). reflexivity.
Qed.

Lemma span_until_all p b : forallb p b = true -> fst (span_until p b) = [].
Proof.
  destruct b as [|c r]; [reflexivity|].
  cbn [forallb span_until]. intros H. apply andb_true_iff in H as [Hc _].
  rewrite Hc. reflexivity.
Qed.

Lemma span_until_app_all p a b :
  forallb p b = true -> fst (span_until p (a ++ b)) = fst (span_until p a).
Proof.
  intros Hb. rewrite span_until_app.
  destruct (span_until p a) as [x y] eqn:E. cbn [fst snd].
  destruct y; [|reflexivity]. cbn [fst].
  rewrite (span_until_all _ _ Hb), app_nil_r.
  clear Hb. revert x E. induction a as [|c r IH]; intros x E.
  - cbn in E. injection E as <-. reflexivity.
  - cbn [span_until] in E. destruct (p c); [discriminate|].
    destruct (span_until p r) as [x' y']. injection E as <- ->.
    rewrite (IH x' eq_refl). reflexivity.
Qed.

Lemma span_until_fst_in p s c : In c (fst (span_until p s)) -> In c s.
Proof.
  induction s as [|a r IH]; [intros []|].
  cbn [span_until]. destruct (p a); [intros []|].
  destruct (span_until p r) as [x y]. cbn [fst] in *.
  intros [-> | H]; [left; reflexivity | right; exact (IH H)].
Qed.

Lemma lstrip_by_in p s c : In c (lstrip_by p s) -> In c s.
Proof.
  induction s as [|a r IH]; [intros []|].
  cbn [lstrip_by]. destruct (p a); [|exact (fun H => H)].
  intros H. right. exact (IH H).
Qed.

Lemma slashes_each (P : codepoint -> bool) sl :
  P slash = true -> slashes sl -> forallb P sl = true.
Proof.
  intros HP. unfold slashes. induction sl as [|c r IH]; [reflexivity|].
  cbn [forallb]. intros H. apply andb_true_iff in H as [Hc Hr].
  apply N.eqb_eq in Hc. subst c. rewrite HP. exact (IH Hr).
Qed.

Lemma alpha_not_space (c : N) : is_ascii_alpha c = true -> isspace c = false.
Proof.
  intros H. assert (B : (65 <= c <= 122)%N).
  { unfold is_ascii_alpha in H.
    destruct (N.leb_spec 65 c), (N.leb_spec c 90), (N.leb_spec 97 c),
      (N.leb_spec c 122); cbn in H; try discriminate; lia. }
  unfold isspace.
  repeat match goal with
         | |- context [(?a <=? ?b)%N] =>
           first [ replace (a <=? b)%N with false
                     by (symmetry; apply N.leb_gt; lia)
                 | replace (a <=? b)%N with true
                     by (symmetry; apply N.leb_le; lia) ]
         | |- context [(?a =? ?b)%N] =>
           replace (a =? b)%N with false by (symmetry; apply N.eqb_neq; lia)
         end.
  reflexivity.
Qed.


Lemma slashes_tail c sl : slashes (c :: sl) -> slashes sl.
Proof.
  unfold slashes. cbn [forallb]. intros H.
  apply andb_true_iff in H as [_ H]. exact H.
Qed.

Lemma slashes_no_netloc sl :
  slashes sl -> fst (span_until is_netloc_delim sl) = [].
Proof.
  intros H. apply span_until_all. apply slashes_each; [reflexivity | exact H].
Qed.

Lemma rstrip_by_app_all p s sl :
  forallb p sl = true -> rstrip_by p (s ++ sl) = rstrip_by p s.
Proof.
  intros H. unfold rstrip_by. rewrite rev_app_distr. f_equal.
  rewrite <- forallb_rev in H. induction (rev sl) as [|c r IH];
    [reflexivity|].
  cbn [forallb] in H. apply andb_true_iff in H as [Hc Hr].
  cbn [app lstrip_by]. rewrite Hc. exact (IH Hr).
Qed.

Lemma url_text_app_slashes u sl :
  slashes sl -> url_text (u ++ sl) = url_text u ++ sl.
Proof.
  intros Hsl. unfold url_text.
  rewrite lstrip_by_app_kept
    by (apply slashes_each; [reflexivity | exact Hsl]).
  rewrite filter_app, (@filter_all _ _ sl)
    by (apply slashes_each; [reflexivity | exact Hsl]).
  reflexivity.
Qed.

Lemma url_text_in u c : In c (url_text u) -> In c u.
Proof.
  intros H. apply filter_In in H as [H _]. exact (lstrip_by_in _ _ _ H).
Qed.

(** The scheme split does not look at trailing slashes. *)
Lemma split_scheme_app_slashes w sl :
  slashes sl ->
  split_scheme (w ++ sl)
  = (fst (split_scheme w), snd (split_scheme w) ++ sl).
Proof.
  intros Hsl. unfold split_scheme. rewrite span_until_app.
  destruct (span_until (is_cp colon) w) as [pre post] eqn:E. cbn [fst snd].
  destruct post as [|c after].
  - rewrite (span_until_none (is_cp colon) sl)
      by (apply slashes_each; [reflexivity | exact Hsl]).
    cbn [fst snd]. destruct pre; cbn [fst snd]; destruct (w ++ sl); reflexivity.
  - cbn [app]. destruct pre as [|c0 pre']; [reflexivity|].
    destruct (is_ascii_alpha c0 && _); reflexivity.
Qed.

(** A scheme starts with a letter of the address. *)
Lemma split_scheme_alpha w :
  fst (split_scheme w) <> [] ->
  exists c0, In c0 w /\ is_ascii_alpha c0 = true.
Proof.
  unfold split_scheme.
  destruct (span_until (is_cp colon) w) as [pre post] eqn:E.
  destruct pre as [|c0 pre']; [intros N; contradiction N; reflexivity|].
  destruct post as [|c after]; [intros N; contradiction N; reflexivity|].
  destruct (is_ascii_alpha c0 && _) eqn:C;
    [|intros N; contradiction N; reflexivity].
  intros _. exists c0. split.
  - apply (span_until_fst_in (is_cp colon)). rewrite E. left. reflexivity.
  - apply andb_true_iff in C as [C _]. exact C.
Qed.

Lemma parse_authority_fields s tail p :
  parse_authority s tail = Ok p ->
  scheme p = s /\ netloc p = fst (span_until is_netloc_delim tail).
Proof.
  unfold parse_authority.
  destruct (span_until is_netloc_delim tail) as [n u].
  destruct (_ || _); [discriminate|].
  match goal with
  | |- context [if ?c then check_bracketed_host ?h else None] =>
    destruct (if c then check_bracketed_host h else None)
  end; [discriminate|].
  destruct (_checknetloc n); [|discriminate].
  intros H. injection H as <-. split; reflexivity.
Qed.

(** The authority is read from the text before the first delimiter only. *)
Lemma parse_authority_same_netloc s tail tail' :
  fst (span_until is_netloc_delim tail)
  = fst (span_until is_netloc_delim tail') ->
  same_authority (parse_authority s tail) (parse_authority s tail').
Proof.
  unfold parse_authority, same_authority.
  destruct (span_until is_netloc_delim tail) as [n u].
  destruct (span_until is_netloc_delim tail') as [n' u'].
  cbn [fst]. intros ->.
  destruct (_ || _); [reflexivity|].
  match goal with
  | |- context [if ?c then check_bracketed_host ?h else None] =>
    destruct (if c then check_bracketed_host h else None)
  end; [reflexivity|].
  destruct (_checknetloc n'); [split|]; reflexivity.
Qed.

Lemma parse_authority_slashes s sl :
  slashes sl ->
  exists rest',
    parse_authority s sl = Ok {| scheme := s; netloc := []; rest := rest' |}.
Proof.
  intros H. unfold parse_authority.
  pose proof (slashes_no_netloc H) as E.
  destruct (span_until is_netloc_delim sl) as [n u]. cbn [fst] in E. subst n.
  exists u. reflexivity.
Qed.

Lemma urlparse_scheme u p :
  urlparse u = Ok p -> scheme p = fst (split_scheme (url_text u)).
Proof.
  rewrite urlparse_in_steps. unfold urlparse_steps.
  destruct (split_scheme (url_text u)) as [s r]. cbn [fst].
  destruct r as [|a [|b tail]];
    [intros H; injection H as <-; reflexivity ..|].
  destruct (_ && _); [|intros H; injection H as <-; reflexivity].
  intros H. apply parse_authority_fields in H as [H _]. exact H.
Qed.

(** Trailing slashes change neither the scheme nor the authority that
    [urlparse] finds, nor the error it raises. *)
Lemma urlparse_app_slashes u sl :
  slashes sl -> same_authority (urlparse (u ++ sl)) (urlparse u).
Proof.
  intros Hsl. rewrite !urlparse_in_steps. unfold urlparse_steps.
  rewrite (url_text_app_slashes _ Hsl), (split_scheme_app_slashes _ Hsl).
  destruct (split_scheme (url_text u)) as [s r]. cbn [fst snd].
  destruct r as [|a [|b tail]]; cbn [app].
  - destruct sl as [|a [|b t]]; [split; reflexivity ..|].
    destruct (_ && _); [|split; reflexivity].
    destruct (parse_authority_slashes s (slashes_tail (slashes_tail Hsl)))
      as [rest' ->].
    split; reflexivity.
  - destruct sl as [|b t]; [split; reflexivity|].
    destruct (_ && _); [|split; reflexivity].
    destruct (parse_authority_slashes s (slashes_tail Hsl)) as [rest' ->].
    split; reflexivity.
  - destruct (_ && _); [|split; reflexivity].
    apply parse_authority_same_netloc. apply span_until_app_all.
    apply slashes_each; [reflexivity | exact Hsl].
Qed.

Lemma hostname_netloc p p' : netloc p = netloc p' -> hostname p = hostname p'.
Proof. unfold hostname. intros ->. reflexivity. Qed.

(** Slashes at the end of an address that is not blank change nothing:
    the same result, or the same exception. *)
Lemma normalize_app_slashes base_url sl :
  forallb isspace base_url = false -> slashes sl ->
  _normalize_base_url (base_url ++ sl) = _normalize_base_url base_url.
Proof.
  intros Hb Hsl. unfold _normalize_base_url.
  rewrite !blank_guard, forallb_app, Hb. cbn [andb].
  pose proof (urlparse_app_slashes base_url Hsl) as S.
  unfold same_authority in S.
  destruct (urlparse (base_url ++ sl)) as [p|e],
           (urlparse base_url) as [p'|e']; try contradiction.
  - destruct S as [-> Hn]. rewrite (hostname_netloc p p' Hn), Hn.
    unfold rstrip_slash. rewrite (@rstrip_by_app_all (N.eqb slash) base_url sl Hsl). reflexivity.
  - subst e'. reflexivity.
Qed.

(** An accepted address is not blank once its trailing slashes are gone. *)
Lemma normalize_ok_not_blank base_url normalized :
  _normalize_base_url base_url = Ok normalized ->
  forallb isspace normalized = false.
Proof.
  unfold _normalize_base_url. rewrite blank_guard.
  destruct (forallb isspace base_url); [discriminate|].
  destruct (urlparse base_url) as [p|] eqn:Hp; [|discriminate].
  destruct (negb (nonempty (scheme p)) || negb (nonempty (netloc p))) eqn:Hsn;
    [discriminate|].
  destruct (existsb _ _); [discriminate|].
  intros H. injection H as <-.
  apply orb_false_iff in Hsn as [Hs _].
  destruct (rstrip_by_prefix (N.eqb slash) base_url) as [sl [E Hsl]].
  fold (rstrip_slash base_url) in E.
  apply urlparse_scheme in Hp. rewrite E in Hp at 1.
  rewrite (url_text_app_slashes _ Hsl), (split_scheme_app_slashes _ Hsl) in Hp.
  cbn [fst] in Hp.
  destruct (@split_scheme_alpha (url_text (rstrip_slash base_url)))
    as [c0 [Hin Halpha]].
  { rewrite <- Hp. intros N. rewrite N in Hs. discriminate. }
  destruct (forallb isspace (rstrip_slash base_url)) eqn:Hb; [|reflexivity].
  rewrite forallb_forall in Hb.
  specialize (Hb c0 (url_text_in _ _ Hin)).
  rewrite (alpha_not_space _ Halpha) in Hb. discriminate.
Qed.

(** Normalising a normalised address changes nothing. *)
Lemma normalize_idempotent_run base_url normalized :
  _normalize_base_url base_url = Ok normalized ->
  _normalize_base_url normalized = Ok normalized.
Proof.
  intros H.
  pose proof (normalize_ok_not_blank _ H) as Hb.
  pose proof (normalize_ok_rstrip _ H) as E.
  destruct (rstrip_by_prefix (N.eqb slash) base_url) as [sl [E' Hsl]].
  fold (rstrip_slash base_url) in E'. rewrite <- E in E'.
  rewrite <- (@normalize_app_slashes normalized sl Hb Hsl), <- E'. exact H.
Qed.

(** X25.  Slashes at the end of a base URL that is not blank change
    nothing: [_normalize_base_url] gives the same result or raises the same
    exception with and without them, and so [fetch_models] is the same
    computation on every transport. *)
Theorem normalize_ignores_trailing_slashes (base_url sl : str) :
  forallb isspace base_url = false -> slashes sl ->
  _normalize_base_url (base_url ++ sl) = _normalize_base_url base_url /\
  forall key, fetch_models (base_url ++ sl) key = fetch_models base_url key.
Proof.
  intros Hb Hsl.
  pose proof (@normalize_app_slashes base_url sl Hb Hsl) as E.
  split; [exact E|].
  intros key. unfold fetch_models. rewrite E. reflexivity.
Qed.

(** X26.  Normalising is idempotent: what [_normalize_base_url] returns is
    itself accepted, and returned unchanged. *)
Theorem normalize_idempotent (base_url normalized : str) :
  _normalize_base_url base_url = Ok normalized ->
  _normalize_base_url normalized = Ok normalized.
Proof. apply normalize_idempotent_run. Qed.

End TrailingSlashes.

Lemma normalize_ignores_trailing_slashes_witness :
  @_normalize_base_url ascii_runtime (lit "https://api.example.com/v1" ++ lit "//")
  = @_normalize_base_url ascii_runtime (lit "https://api.example.com/v1").
Proof.
  apply (@normalize_ignores_trailing_slashes ascii_runtime
           (lit "https://api.example.com/v1") (lit "//"));
    reflexivity.
Defined.

Lemma normalize_idempotent_witness :
  @_normalize_base_url ascii_runtime (lit "https://api.example.com")
  = Ok (lit "https://api.example.com").
Proof.
  apply (@normalize_idempotent ascii_runtime (lit "https://api.example.com/")).
  reflexivity.
Defined.
